(** * Sphere_Base: surface edges and the orbital camera

    A shallow embedding of [sphere_base/edge/surface_edge.py] and
    [sphere_base/sphere_universe_base/suv_cam.py].

    Conventions of the embedding.
    - Python objects that are shared and mutated (sockets, the sphere's item
      collection, the mouse-ray registry, the undo history, the stream of
      rendering calls) live in an explicit store that every method threads.
    - A method is a computation [M S A]: it takes the store, and gives back
      either a returned value or a raised exception, together with the store
      as the method left it (mutations made before a [raise] are kept).
    - Python [int] is [Z]; Python [float] is idealised as an exact rational
      [Q], so rounding is outside the model.  Float division raises
      [ZeroDivisionError] on a zero divisor, as in Python.
    - Calls into OpenGL and into the shader abstraction are recorded in the
      store and taken to succeed; the [try ... except] blocks around them are
      kept, their handlers are never entered.
    - The numerical collaborators that are not part of these files
      (pyrr's [slerp], [normalize], [create_look_at], the graphic edge's
      [get_position] and [get_number_of_points], the sphere calculator's
      [get_distance_on_sphere], numpy's narrowing of a number to dtype
      [float32]) are operations of a type class; every theorem is proved for
      all of their implementations. *)

From Stdlib Require Import ZArith QArith Qabs Qround Lqa String.
From stdpp Require Import base option list functions gmap.

Abbreviation socket_ref := nat (only parsing).
Abbreviation edge_ref := nat (only parsing).

Definition vec3 : Type := Q * Q * Q.
Definition quat : Type := Q * Q * Q * Q.
Definition mat44 : Type := list (list Q).

(** ** Exceptions and the method monad *)

Inductive exn : Set :=
| AttributeError      (* attribute access on [None] *)
| ZeroDivisionError   (* float division by zero *)
| IndexError.         (* list index out of range *)

Inductive outcome (A : Type) : Type :=
| Returned (a : A)
| Raised (e : exn).
Arguments Returned {A} a.
Arguments Raised {A} e.

Definition M (S A : Type) : Type := S -> outcome A * S.

Definition ret {S A} (a : A) : M S A := fun s => (Returned a, s).
Definition raise {S A} (e : exn) : M S A := fun s => (Raised e, s).
Definition bind {S A B} (m : M S A) (k : A -> M S B) : M S B :=
  fun s => match m s with
           | (Returned a, s') => k a s'
           | (Raised e, s') => (Raised e, s')
           end.
Definition gets {S A} (f : S -> A) : M S A := fun s => (Returned (f s), s).
Definition modify {S} (f : S -> S) : M S unit := fun s => (Returned tt, f s).

(** [try: body except Exception as e: handler e] *)
Definition try_except {S A} (body : M S A) (handler : exn -> M S A) : M S A :=
  fun s => match body s with
           | (Returned a, s') => (Returned a, s')
           | (Raised e, s') => handler e s'
           end.

(** The store a computation leaves behind, and what it gave back. *)
Definition exec {S A} (m : M S A) (s : S) : S := snd (m s).
Definition result {S A} (m : M S A) (s : S) : outcome A := fst (m s).

(** Sequencing is written with stdpp's monad notation: [x ← m; k] and
    [m ;; k]. *)
#[global] Instance M_ret {S} : MRet (M S) := fun A => @ret S A.
#[global] Instance M_bind {S} : MBind (M S) := fun A B k m => @bind S A B m k.

(** Python's [a / b] on floats. *)
Definition py_div {S} (a b : Q) : M S Q :=
  if Qeq_bool b 0 then raise ZeroDivisionError else ret (a / b)%Q.

(** Python's [range(n)]: [0, 1, ..., n-1], empty when [n <= 0]. *)
Definition range (n : Z) : list Z := map Z.of_nat (seq 0 (Z.to_nat n)).

(** Python's [list.remove] restricted to a present element: the first
    occurrence goes, the rest stays. *)
Fixpoint remove_first (e : nat) (l : list nat) : list nat :=
  match l with
  | [] => []
  | x :: l' => if Nat.eq_dec x e then l' else x :: remove_first e l'
  end.

(** ** Sockets *)

Module Socket.

Record t : Type := mk {
  xyz : vec3;
  pos_orientation_offset : quat;
  node_disc_radius : Q;      (* [socket.node.gr_node.node_disc_radius] *)
  edges : list edge_ref      (* back-references to the attached edges *)
}.

(** Modelled from the spec: [Socket.add_edge] is not part of the given
    files.  The socket owns the back-reference list of the edges attached
    to it; attaching appends the edge. *)
Definition add_edge (e : edge_ref) (s : t) : t :=
  mk (xyz s) (pos_orientation_offset s) (node_disc_radius s) (edges s ++ [e]).

(** Modelled from the spec: [Socket.remove_edge] is not part of the given
    files.  Detaching takes one back-reference to the edge out of the list
    and leaves a list that does not hold the edge as it is. *)
Definition remove_edge (e : edge_ref) (s : t) : t :=
  mk (xyz s) (pos_orientation_offset s) (node_disc_radius s)
     (remove_first e (edges s)).

End Socket.

(** ** Rendering calls

    Calls into the shader abstraction and into OpenGL are recorded, in order,
    in the store. *)

Inductive shader_ref : Set :=
| sphere_shader   (* [self.shader], the sphere's shader *)
| model_shader.   (* [self.model.shader] *)

Inductive call : Type :=
| draw_edge (sh : shader_ref) (points : list vec3) (width : Q)
            (color : list Q) (dotted : bool)
| set_environment
| glBindVertexArray (array : Z)
| glBindBuffer (buffer : Z)
| glBufferData (size : Z) (data : list Q)
| glEnableVertexAttribArray (index : Z)
| glVertexAttribPointer (index size stride : Z)
| glDrawArrays (first count : Z)        (* mode [GL_LINES] *)
| dump_exception (e : exn).

(** ** The store around an edge *)

Record World : Type := mkWorld {
  sockets : socket_ref -> Socket.t;                 (* the socket objects *)
  items : gset edge_ref;                            (* the sphere's item collection *)
  collision_objects : gmap edge_ref (Z * list vec3);(* the mouse ray's registry *)
  next_collision_id : Z;
  history : list (string * bool);                   (* the sphere's undo history *)
  calls : list call                                 (* rendering calls issued so far *)
}.

Definition with_sockets (f : socket_ref -> Socket.t) (w : World) : World :=
  mkWorld f (items w) (collision_objects w) (next_collision_id w) (history w) (calls w).
Definition with_items (i : gset edge_ref) (w : World) : World :=
  mkWorld (sockets w) i (collision_objects w) (next_collision_id w) (history w) (calls w).
Definition with_collision_objects (c : gmap edge_ref (Z * list vec3)) (n : Z)
    (w : World) : World :=
  mkWorld (sockets w) (items w) c n (history w) (calls w).
Definition with_history (h : list (string * bool)) (w : World) : World :=
  mkWorld (sockets w) (items w) (collision_objects w) (next_collision_id w) h (calls w).
Definition with_calls (c : list call) (w : World) : World :=
  mkWorld (sockets w) (items w) (collision_objects w) (next_collision_id w) (history w) c.

(** ** Numerical collaborators of the edge

    [slerp] is [pyrr.quaternion.slerp]; [get_position] and
    [get_number_of_points] are methods of the graphic edge [gr_edge];
    [get_distance_on_sphere] is the sphere calculator's arc length between
    two sockets (arguments in the order of the call: end, start, radius);
    [float32] is the value a number has once stored in a numpy array of
    dtype [np.float32]. *)

Class Collaborators : Type := {
  slerp : quat -> quat -> Q -> quat;
  get_position : quat -> vec3;
  get_number_of_points : vec3 -> vec3 -> Q -> Q -> Z;
  get_distance_on_sphere : Socket.t -> Socket.t -> Q -> Q;
  float32 : Q -> Q
}.

(** ** class SurfaceEdge *)

Module SurfaceEdge.

Record t : Type := mk {
  id : edge_ref;                       (* the identity of [self] *)
  _start_socket : option socket_ref;
  _end_socket : option socket_ref;
  radius : Q;
  unit_length : Q;                     (* [self.gr_edge.unit_length] *)
  pos_array : list vec3;
  vertices : list Q;
  buffer : list Q;
  mesh_id : Z;
  buffer_id : Z;
  collision_object_id : option Z;
  color : option (list Q);
  xyz : option vec3;
  _edge_moved : bool
}.

Definition with_start_socket (s : option socket_ref) (e : t) : t :=
  mk (id e) s (_end_socket e) (radius e) (unit_length e) (pos_array e)
     (vertices e) (buffer e) (mesh_id e) (buffer_id e) (collision_object_id e)
     (color e) (xyz e) (_edge_moved e).
Definition with_end_socket (s : option socket_ref) (e : t) : t :=
  mk (id e) (_start_socket e) s (radius e) (unit_length e) (pos_array e)
     (vertices e) (buffer e) (mesh_id e) (buffer_id e) (collision_object_id e)
     (color e) (xyz e) (_edge_moved e).
Definition with_pos_array (p : list vec3) (e : t) : t :=
  mk (id e) (_start_socket e) (_end_socket e) (radius e) (unit_length e) p
     (vertices e) (buffer e) (mesh_id e) (buffer_id e) (collision_object_id e)
     (color e) (xyz e) (_edge_moved e).
Definition with_buffers (v b : list Q) (e : t) : t :=
  mk (id e) (_start_socket e) (_end_socket e) (radius e) (unit_length e)
     (pos_array e) v b (mesh_id e) (buffer_id e) (collision_object_id e)
     (color e) (xyz e) (_edge_moved e).
Definition with_collision_object_id (c : option Z) (e : t) : t :=
  mk (id e) (_start_socket e) (_end_socket e) (radius e) (unit_length e)
     (pos_array e) (vertices e) (buffer e) (mesh_id e) (buffer_id e) c
     (color e) (xyz e) (_edge_moved e).
Definition with_color (c : option (list Q)) (e : t) : t :=
  mk (id e) (_start_socket e) (_end_socket e) (radius e) (unit_length e)
     (pos_array e) (vertices e) (buffer e) (mesh_id e) (buffer_id e)
     (collision_object_id e) c (xyz e) (_edge_moved e).
Definition with_xyz (p : option vec3) (e : t) : t :=
  mk (id e) (_start_socket e) (_end_socket e) (radius e) (unit_length e)
     (pos_array e) (vertices e) (buffer e) (mesh_id e) (buffer_id e)
     (collision_object_id e) (color e) p (_edge_moved e).
Definition with_edge_moved (b : bool) (e : t) : t :=
  mk (id e) (_start_socket e) (_end_socket e) (radius e) (unit_length e)
     (pos_array e) (vertices e) (buffer e) (mesh_id e) (buffer_id e)
     (collision_object_id e) (color e) (xyz e) b.

(** What a method of the edge can read and write: the edge itself and the
    store around it. *)
Record State : Type := mkState { self : t; world : World }.

Definition on_self (f : t -> t) (st : State) : State :=
  mkState (f (self st)) (world st).
Definition on_world (f : World -> World) (st : State) : State :=
  mkState (self st) (f (world st)).

(** The back-reference list of socket [s]. *)
Definition edges_of (st : State) (s : socket_ref) : list edge_ref :=
  Socket.edges (sockets (world st) s).

(** *** Calls into collaborators *)

(** [socket.<attribute>]: [AttributeError] when the reference is [None]. *)
Definition attr (r : option socket_ref) : M State Socket.t :=
  match r with
  | Some s => gets (fun st => sockets (world st) s)
  | None => raise AttributeError
  end.

(** [socket.remove_edge(self)] and [socket.add_edge(self)] on a socket
    reference. *)
Definition socket_remove_edge (r : option socket_ref) : M State unit :=
  match r with
  | Some s =>
      modify (fun st =>
        on_world (fun w => with_sockets
          (alter (Socket.remove_edge (id (self st))) s (sockets w)) w) st)
  | None => raise AttributeError
  end.
Definition socket_add_edge (r : option socket_ref) : M State unit :=
  match r with
  | Some s =>
      modify (fun st =>
        on_world (fun w => with_sockets
          (alter (Socket.add_edge (id (self st))) s (sockets w)) w) st)
  | None => raise AttributeError
  end.

(** Modelled from the spec: [Sphere.remove_item] is not part of the given
    files.  The sphere forgets the item. *)
Definition remove_item : M State unit :=
  modify (fun st => on_world (fun w => with_items (items w ∖ {[ id (self st) ]}) w) st).

(** Modelled from the spec: [create_collision_object(edge, points)] of the
    mouse ray is not part of the given files.  It registers a pickable
    shape for the edge over the points and returns its handle. *)
Definition create_collision_object (points : list vec3) : M State Z :=
  fun st =>
    let w := world st in
    let h := next_collision_id w in
    (Returned h,
     on_world (with_collision_objects
                 (<[ id (self st) := (h, points) ]> (collision_objects w)) (h + 1)%Z) st).

(** Modelled from the spec: [delete_collision_object(edge)] of the mouse
    ray is not part of the given files.  It takes the edge's shape out of
    the registry. *)
Definition delete_collision_object : M State unit :=
  modify (fun st =>
    on_world (fun w => with_collision_objects
      (delete (id (self st)) (collision_objects w)) (next_collision_id w) w) st).

(** Modelled from the spec: [history.store_history(label, flag)] is not
    part of the given files.  It records one entry of the undo log. *)
Definition store_history (label : string) (flag : bool) : M State unit :=
  modify (on_world (fun w => with_history (history w ++ [(label, flag)]) w)).

(** A rendering call: recorded in order. *)
Definition issue (c : call) : M State unit :=
  modify (on_world (fun w => with_calls (calls w ++ [c]) w)).

(** Python truth value of [self.collision_object_id] and of [self.color]. *)
Definition truthy_id (c : option Z) : bool :=
  match c with
  | None => false
  | Some h => negb (h =? 0)%Z
  end.
Definition truthy_color (c : option (list Q)) : bool :=
  match c with
  | None | Some [] => false
  | Some (_ :: _) => true
  end.

(** [numpy.float32] has [itemsize] 4. *)
Definition itemsize : Z := 4.

(** *** Methods *)

Section Methods.
Context `{Collaborators}.

Definition load_mesh_into_opengl : M State unit :=
  try_except
    (e ← gets self;
     issue (glBindVertexArray (mesh_id e)) ;;
     issue (glBindBuffer (buffer_id e)) ;;
     issue (glBufferData (itemsize * Z.of_nat (length (buffer e))) (buffer e)) ;;
     issue (glEnableVertexAttribArray 0) ;;
     issue (glVertexAttribPointer 0 3 (itemsize * 8)) ;;
     issue (glBindBuffer 0) ;;
     issue (glBindVertexArray 0) ;;
     issue set_environment)
    (fun e => issue (dump_exception e)).

(** The [start_socket] property. *)
Definition start_socket : M State (option socket_ref) :=
  gets (fun st => _start_socket (self st)).

Definition set_start_socket (start_socket' : option socket_ref) : M State unit :=
  old ← gets (fun st => _start_socket (self st));
  (if old is Some _ then socket_remove_edge old else mret tt) ;;
  modify (on_self (with_start_socket start_socket')) ;;
  new ← start_socket;
  if new is Some _ then socket_add_edge new else mret tt.

(** The [end_socket] property. *)
Definition end_socket : M State (option socket_ref) :=
  gets (fun st => _end_socket (self st)).

Definition set_end_socket (end_socket' : option socket_ref) : M State unit :=
  old ← gets (fun st => _end_socket (self st));
  (if old is Some _ then socket_remove_edge old else mret tt) ;;
  modify (on_self (with_end_socket end_socket')) ;;
  new ← end_socket;
  if new is Some _ then socket_add_edge new else mret tt.

Definition update_buffers (pos_array' : list vec3) : M State unit :=
  (* takes the list with points and puts them in one list *)
  let vertices' :=
    foldl (fun acc (point : vec3) =>
             let '(x, y, z) := point in acc ++ [x] ++ [y] ++ [z])
          [] pos_array' in
  (* [np.array(vertices, dtype=np.float32)]: every number is narrowed *)
  let narrowed := map float32 vertices' in
  (* [np.array(self.vertices, dtype=np.float32)]: a copy of an array that
     has this dtype already *)
  modify (on_self (with_buffers narrowed narrowed)).

Definition get_edge_start_end : M State (quat * quat) :=
  s ← start_socket;
  e ← end_socket;
  start_obj ← attr s;
  let r := Socket.node_disc_radius start_obj in
  end_obj ← attr e;
  rad ← gets (fun st => radius (self st));
  let ln := get_distance_on_sphere end_obj start_obj rad in
  t ← py_div r ln;
  let s_angle := Socket.pos_orientation_offset start_obj in
  let end_ := Socket.pos_orientation_offset end_obj in
  let start := slerp s_angle end_ t in
  mret (start, end_).

Definition update_line_points_position (number_of_vertices : Z) (step : Q)
    : M State unit :=
  '(start, end_) ← get_edge_start_end;
  modify (on_self (with_pos_array [])) ;;
  foldr (fun (i : Z) (rest : M State unit) =>
           let pos_orientation_offset := slerp start end_ (step * inject_Z i) in
           let pos := get_position pos_orientation_offset in
           modify (on_self (fun e => with_pos_array (pos_array e ++ [pos]) e)) ;;
           rest)
        (mret tt) (range number_of_vertices) ;;
  points ← gets (fun st => pos_array (self st));
  h ← create_collision_object points;
  modify (on_self (with_collision_object_id (Some h))) ;;
  s ← start_socket;
  start_obj ← attr s;
  modify (on_self (with_xyz (Some (Socket.xyz start_obj)))) ;;
  points ← gets (fun st => pos_array (self st));
  update_buffers points.

Definition update_position : M State unit :=
  s ← start_socket;
  e ← end_socket;
  if s is Some _ then
    if e is Some _ then
      start_obj ← attr s;
      end_obj ← attr e;
      rad ← gets (fun st => radius (self st));
      ul ← gets (fun st => unit_length (self st));
      let n := get_number_of_points (Socket.xyz start_obj) (Socket.xyz end_obj) rad ul in
      let step := if (1 <? n)%Z then (1 / inject_Z n)%Q else 1%Q in
      (if (0 <? n)%Z then update_line_points_position n step else mret tt) ;;
      load_mesh_into_opengl
    else mret tt
  else mret tt.

Definition is_dragging (value : bool) : M State bool :=
  moved ← gets (fun st => _edge_moved (self st));
  if Bool.eqb moved value then mret value
  else if moved && negb value then
    (* end dragging *)
    modify (on_self (with_edge_moved false)) ;;
    store_history "edge moved" true ;;
    gets (fun st => _edge_moved (self st))
  else if negb moved && value then
    (* start dragging *)
    modify (on_self (with_edge_moved true)) ;;
    gets (fun st => _edge_moved (self st))
  else gets (fun st => _edge_moved (self st)).

Definition remove : M State unit :=
  (* make sure that the edge gets removed from both sockets *)
  s ← start_socket;
  socket_remove_edge s ;;
  e ← end_socket;
  socket_remove_edge e ;;
  remove_item ;;
  c ← gets (fun st => collision_object_id (self st));
  if truthy_id c then delete_collision_object else mret tt.

Definition draw : M State unit :=
  c ← gets (fun st => color (self st));
  let color' := if truthy_color c then default [] c else [0; 0; 0; 1 # 2]%Q in
  modify (on_self (with_color (Some color'))) ;;
  points ← gets (fun st => pos_array (self st));
  issue (draw_edge sphere_shader points (3 # 2) color' false) ;;
  issue (draw_edge model_shader points 4 color' false) ;;
  try_except
    (e ← gets self;
     if (length (vertices e) =? 0)%nat then mret tt
     else
       issue (glBindVertexArray (mesh_id e)) ;;
       issue (glBindBuffer (buffer_id e)) ;;
       issue (glBufferData (Z.of_nat (length (vertices e))) (vertices e)) ;;
       issue (glEnableVertexAttribArray 0) ;;
       issue (glVertexAttribPointer 0 3 (itemsize * 3)) ;;
       issue (glDrawArrays 0 2) ;;
       issue (glBindBuffer 0) ;;
       issue (glBindVertexArray 0))
    (fun e => issue (dump_exception e)).

End Methods.

End SurfaceEdge.

(** ** Numerical collaborators of the camera (pyrr)

    [vector_length] is [vector.length], [normalize] is [vector.normalize],
    [cross] is [Vector3.cross] and [create_look_at] is
    [matrix44.create_look_at]. *)

Class Pyrr : Type := {
  vector_length : vec3 -> Q;
  normalize : vec3 -> vec3;
  cross : vec3 -> vec3 -> vec3;
  create_look_at : vec3 -> vec3 -> vec3 -> mat44
}.

(** [Vector3(a) - Vector3(b)] *)
Definition vsub (a b : vec3) : vec3 :=
  let '(ax, ay, az) := a in
  let '(bx, by_, bz) := b in
  (ax - bx, ay - by_, az - bz)%Q.

(** ** class Camera *)

Module Camera.

Definition TARGET : vec3 := (0, 0, 0)%Q.
Definition DEFAULT_POS : vec3 := (0, 0, 3)%Q.
Definition MOUSE_SENSITIVITY : Q := 1 # 10.

Record t : Type := mk {
  target : vec3;
  xyz : vec3;
  distance_to_target : option Q;
  camera_direction : option vec3;
  camera_up : option vec3;
  mouse_sensitivity : Q;
  movement_stack : list vec3;
  target_stack : list vec3;
  view_loc : option mat44      (* the view slot of [config], read by the shaders *)
}.

Definition with_target (v : vec3) (c : t) : t :=
  mk v (xyz c) (distance_to_target c) (camera_direction c) (camera_up c)
     (mouse_sensitivity c) (movement_stack c) (target_stack c) (view_loc c).
Definition with_xyz (v : vec3) (c : t) : t :=
  mk (target c) v (distance_to_target c) (camera_direction c) (camera_up c)
     (mouse_sensitivity c) (movement_stack c) (target_stack c) (view_loc c).
Definition with_view (d : Q) (dir up : vec3) (c : t) : t :=
  mk (target c) (xyz c) (Some d) (Some dir) (Some up)
     (mouse_sensitivity c) (movement_stack c) (target_stack c) (view_loc c).
Definition with_movement_stack (l : list vec3) (c : t) : t :=
  mk (target c) (xyz c) (distance_to_target c) (camera_direction c) (camera_up c)
     (mouse_sensitivity c) l (target_stack c) (view_loc c).
Definition with_target_stack (l : list vec3) (c : t) : t :=
  mk (target c) (xyz c) (distance_to_target c) (camera_direction c) (camera_up c)
     (mouse_sensitivity c) (movement_stack c) l (view_loc c).
Definition with_view_loc (m : mat44) (c : t) : t :=
  mk (target c) (xyz c) (distance_to_target c) (camera_direction c) (camera_up c)
     (mouse_sensitivity c) (movement_stack c) (target_stack c) (Some m).

(** [l[0]]: [IndexError] on an empty list. *)
Definition first_item (l : list vec3) : M t vec3 :=
  match l with
  | [] => raise IndexError
  | v :: _ => mret v
  end.

(** [del l[0]]: [IndexError] on an empty list. *)
Definition del_first (l : list vec3) : M t (list vec3) :=
  match l with
  | [] => raise IndexError
  | _ :: l' => mret l'
  end.

(** The state [_init_variables] sets up, before the first [_set_view]. *)
Definition _init_variables : t :=
  mk TARGET DEFAULT_POS None None None MOUSE_SENSITIVITY [] [] None.

Section Methods.
Context `{Pyrr}.

Definition get_distance_to_target : M t Q :=
  c ← gets (fun c => c);
  mret (vector_length (vsub (target c) (xyz c))).

Definition _set_view : M t unit :=
  (* distance to target *)
  d ← get_distance_to_target;
  c ← gets (fun c => c);
  (* direction vector, points away from target *)
  let direction := normalize (vsub (xyz c) (target c)) in
  (* right vector that represents the positive x-axis of the camera space *)
  let up : vec3 := (0, 1, 0)%Q in
  let camera_right := normalize (cross up direction) in
  modify (with_view d direction (cross direction camera_right)).

Definition set_view_loc (m : mat44) : M t unit := modify (with_view_loc m).

Definition get_view_matrix : M t mat44 :=
  _set_view ;;
  c ← gets (fun c => c);
  let m := create_look_at (xyz c) (target c) (default (0, 0, 0)%Q (camera_up c)) in
  set_view_loc m ;;
  mret m.

Definition draw : M t unit :=
  ms ← gets movement_stack;
  (if (0 <? length ms)%nat then
     p ← first_item ms;
     modify (with_xyz p) ;;
     ts ← gets target_stack;
     q ← first_item ts;
     modify (with_target q) ;;
     ms' ← (l ← gets movement_stack; del_first l);
     modify (with_movement_stack ms') ;;
     ts' ← (l ← gets target_stack; del_first l);
     modify (with_target_stack ts')
   else mret tt) ;;
  get_view_matrix ;;
  mret tt.

End Methods.

End Camera.

(** ** Rational stand-ins for the numerical collaborators

    The statements below hold for every implementation of the collaborators.
    To run the model on concrete inputs some implementation is needed; these
    are exact rational ones: interpolation is linear with the parameter
    clamped to [0, 1], a position is the vector part of an orientation, the
    distance between two positions is the sum of the coordinate differences,
    the number of points is that distance divided by the unit length,
    rounded down, and narrowing rounds to the nearest multiple of 2^-24. *)

Module Demo.

Definition clamp01 (t : Q) : Q :=
  if Qle_bool t 0 then 0 else if Qle_bool 1 t then 1 else t.

Definition lerp (a b : quat) (t : Q) : quat :=
  let '(a0, a1, a2, a3) := a in
  let '(b0, b1, b2, b3) := b in
  let u := clamp01 t in
  (a0 + u * (b0 - a0), a1 + u * (b1 - a1), a2 + u * (b2 - a2), a3 + u * (b3 - a3))%Q.

Definition vector_part (q : quat) : vec3 :=
  let '(x, y, z, _) := q in (x, y, z).

Definition distance (a b : vec3) : Q :=
  let '(ax, ay, az) := a in
  let '(bx, by_, bz) := b in
  (Qabs (ax - bx) + Qabs (ay - by_) + Qabs (az - bz))%Q.

Definition narrow (x : Q) : Q :=
  Qmake (Qfloor (x * inject_Z 16777216 + (1 # 2))) 16777216.

Definition collaborators : Collaborators := {|
  slerp := lerp;
  get_position := vector_part;
  get_number_of_points := fun a b _ unit_length => Qfloor (distance a b / unit_length);
  get_distance_on_sphere := fun a b _ => distance (Socket.xyz a) (Socket.xyz b);
  float32 := narrow
|}.

Definition pyrr : Pyrr := {|
  vector_length := fun v => distance v (0, 0, 0)%Q;
  normalize := fun v => v;
  cross := fun a b =>
    let '(ax, ay, az) := a in
    let '(bx, by_, bz) := b in
    (ay * bz - az * by_, az * bx - ax * bz, ax * by_ - ay * bx)%Q;
  create_look_at := fun eye target up =>
    let row (v : vec3) := let '(x, y, z) := v in [x; y; z] in
    [row eye; row target; row up]
|}.

(** Equality of rational vectors, up to the representation of fractions. *)
Definition vec3_eqb (a b : vec3) : bool :=
  let '(ax, ay, az) := a in
  let '(bx, by_, bz) := b in
  Qeq_bool ax bx && Qeq_bool ay by_ && Qeq_bool az bz.

(** A socket at position [p], its orientation offset having [p] as vector
    part, on a node whose disc has radius [r]. *)
Definition socket_at (p : vec3) (r : Q) (es : list edge_ref) : Socket.t :=
  let '(x, y, z) := p in Socket.mk p (x, y, z, 0%Q) r es.

(** Sockets 1 and 2 at the two given positions; every other reference is a
    socket at the north pole. *)
Definition two_sockets (p1 p2 : vec3) (r : Q) (es1 es2 : list edge_ref)
    : socket_ref -> Socket.t :=
  fun s => match s with
           | 1%nat => socket_at p1 r es1
           | 2%nat => socket_at p2 r es2
           | _ => socket_at (0, 1, 0)%Q r []
           end.

Definition world_of (socks : socket_ref -> Socket.t) : World :=
  mkWorld socks {[ 7%nat ]} ∅ 1 [] [].

(** Edge 7 on a sphere of radius 1, as the constructor leaves it before
    the first [update_position]. *)
Definition edge (s e : option socket_ref) (unit_length : Q) : SurfaceEdge.t :=
  SurfaceEdge.mk 7 s e 1 unit_length [] [] [] 1 1 None (Some [1; 1; 1; 1]%Q) None false.

(** The end-to-end scenario: radius 1, disc radius 0.05, sockets far apart,
    unit length such that four points are asked for. *)
Definition scenario : SurfaceEdge.State :=
  SurfaceEdge.mkState
    (edge (Some 1%nat) (Some 2%nat) (3 # 5))
    (world_of (two_sockets (1, 0, 0)%Q (- (3 # 5), 4 # 5, 0)%Q (1 # 20) [7%nat] [7%nat])).

(** Two sockets at one and the same position. *)
Definition coincident : SurfaceEdge.State :=
  SurfaceEdge.mkState
    (edge (Some 1%nat) (Some 2%nat) (3 # 5))
    (world_of (two_sockets (1, 0, 0)%Q (1, 0, 0)%Q (1 # 20) [7%nat] [7%nat])).

(** Two sockets closer to each other than the radius of the node disc. *)
Definition crowded : SurfaceEdge.State :=
  SurfaceEdge.mkState
    (edge (Some 1%nat) (Some 2%nat) (1 # 5))
    (world_of (two_sockets (1, 0, 0)%Q (4 # 5, 3 # 5, 0)%Q 1 [7%nat] [7%nat])).

(** An edge under construction: only its start socket is set. *)
Definition dangling : SurfaceEdge.State :=
  SurfaceEdge.mkState
    (edge (Some 1%nat) None (3 # 5))
    (world_of (two_sockets (1, 0, 0)%Q (0, 0, 1)%Q (1 # 20) [7%nat] [])).

(** An edge attached to nothing. *)
Definition unattached : SurfaceEdge.State :=
  SurfaceEdge.mkState
    (edge None None (3 # 5))
    (world_of (two_sockets (1, 0, 0)%Q (0, 0, 1)%Q (1 # 20) [] [])).

(** The scenario after its first [update_position]: four points, a
    registered collision handle. *)
Definition drawn : SurfaceEdge.State :=
  exec (@SurfaceEdge.update_position collaborators) scenario.

(** The same scenario on a mouse ray that has handed out no handle yet,
    after its first [update_position]: the edge is registered under the
    first handle, 0. *)
Definition first_drawn : SurfaceEdge.State :=
  exec (@SurfaceEdge.update_position collaborators)
    (SurfaceEdge.mkState
       (edge (Some 1%nat) (Some 2%nat) (3 # 5))
       (mkWorld (two_sockets (1, 0, 0)%Q (- (3 # 5), 4 # 5, 0)%Q (1 # 20)
                             [7%nat] [7%nat])
                {[ 7%nat ]} ∅ 0 [] [])).

(** A camera at its default view with one queued (position, target) pair. *)
Definition queued_camera : Camera.t :=
  Camera.with_target_stack [(5, 0, 0)%Q]
    (Camera.with_movement_stack [(5, 0, 3)%Q] Camera._init_variables).

End Demo.

(** ** The constructor of an edge *)

Module Lifecycle.
Import SurfaceEdge.

(** Modelled from the spec: [Sphere.add_item] is not part of the given
    files.  The sphere registers the item. *)
Definition add_item : M State unit :=
  modify (fun st => on_world (fun w => with_items (items w ∪ {[ id (self st) ]}) w) st).

(** What the constructor is handed by its collaborators: the identity of the
    new object, the sphere's radius, the graphic edge's unit length and
    color, and the names [glGenVertexArrays(1)] and [glGenBuffers(1)]
    return. *)
Record Fresh : Type := mkFresh {
  new_id : edge_ref;
  sphere_radius : Q;
  gr_unit_length : Q;
  gr_color : option (list Q);
  gen_vertex_array : Z;
  gen_buffer : Z
}.

(** The attributes the constructor assigns, with both endpoints still
    [None]: the setters that run next read none of the others. *)
Definition blank (f : Fresh) : t :=
  mk (new_id f) None None (sphere_radius f) (gr_unit_length f) [] [] []
     (gen_vertex_array f) (gen_buffer f) None (gr_color f) None false.

Section Construct.
Context `{Collaborators}.

(** [SurfaceEdge(target_sphere, socket_start, socket_end)], run in the store
    [w] of the target sphere. *)
Definition __init__ (f : Fresh) (socket_start socket_end : option socket_ref)
    (w : World) : outcome unit * State :=
  (set_start_socket (if socket_start is Some _ then socket_start else None) ;;
   set_end_socket (if socket_end is Some _ then socket_end else None) ;;
   (* register the edge to the sphere_base for rendering *)
   add_item ;;
   update_position) (mkState (blank f) w).

End Construct.

End Lifecycle.

(** ** Serialization of an edge *)

(** The sphere's registry of items by id and the id of a socket;
    [get_item_by_id] gives [None] for an id the registry does not know. *)
Class Registry : Type := {
  socket_id : socket_ref -> Z;
  get_item_by_id : Z -> option socket_ref
}.

Module Serialization.

(** The record [serialize] builds and [deserialize] reads, key by key. *)
Record data : Type := mkData {
  data_id : Z;
  data_type : string;
  data_edge_type : Z;
  data_start_socket_id : Z;
  data_end_socket_id : Z;
  data_scene : option string
}.

(** The edge together with the attributes of [Serializable] that the
    geometry does not use. *)
Record t : Type := mk {
  edge : SurfaceEdge.State;
  id : Z;                                  (* [self.id] *)
  type : string;                           (* [self.type] *)
  edge_type : Z;
  serialized_detail_scene : option string
}.

Definition with_edge (e : SurfaceEdge.State) (s : t) : t :=
  mk e (id s) (type s) (edge_type s) (serialized_detail_scene s).
Definition with_id (i : Z) (s : t) : t :=
  mk (edge s) i (type s) (edge_type s) (serialized_detail_scene s).
Definition with_edge_type (k : Z) (s : t) : t :=
  mk (edge s) (id s) (type s) k (serialized_detail_scene s).
Definition with_scene (d : option string) (s : t) : t :=
  mk (edge s) (id s) (type s) (edge_type s) d.

(** A method of [SurfaceEdge] run on the edge inside. *)
Definition on_edge {A} (m : M SurfaceEdge.State A) : M t A :=
  fun s => let '(o, e') := m (edge s) in (o, with_edge e' s).

(** [socket.id]: [AttributeError] when the reference is [None]. *)
Definition id_of `{Registry} (r : option socket_ref) : M t Z :=
  match r with
  | Some s => mret (socket_id s)
  | None => raise AttributeError
  end.

Section Methods.
Context `{Collaborators} `{Registry}.

Definition serialize : M t data :=
  s ← gets (fun s => s);
  a ← on_edge SurfaceEdge.start_socket;
  start_socket_id ← id_of a;
  b ← on_edge SurfaceEdge.end_socket;
  end_socket_id ← id_of b;
  mret (mkData (id s) (type s) (edge_type s) start_socket_id end_socket_id
               (serialized_detail_scene s)).

Definition deserialize (d : data) (restore_id : bool) : M t bool :=
  (if restore_id then modify (with_id (data_id d)) else mret tt) ;;
  modify (with_edge_type (data_edge_type d)) ;;
  on_edge (SurfaceEdge.set_start_socket (get_item_by_id (data_start_socket_id d))) ;;
  on_edge (SurfaceEdge.set_end_socket (get_item_by_id (data_end_socket_id d))) ;;
  modify (with_scene (data_scene d)) ;;
  on_edge SurfaceEdge.update_position ;;
  mret true.

End Methods.

End Serialization.

(** ** Sequences of calls *)

(** The drag signals [vs], sent to the edge one after the other. *)
Fixpoint drag_signals (vs : list bool) : M SurfaceEdge.State unit :=
  match vs with
  | [] => mret tt
  | v :: vs' => SurfaceEdge.is_dragging v ;; drag_signals vs'
  end.

(** How many of the signals [vs] end a drag, on an edge whose dragging flag
    is [moved]. *)
Fixpoint drags_ended (moved : bool) (vs : list bool) : nat :=
  match vs with
  | [] => 0
  | v :: vs' => (if moved && negb v then 1 else 0) + drags_ended v vs'
  end.

(** [n] frames: [Camera.draw] called [n] times in a row. *)
Fixpoint frames `{Pyrr} (n : nat) : M Camera.t unit :=
  match n with
  | O => mret tt
  | S k => Camera.draw ;; frames k
  end.

(** The three coordinates of each point, one point after the other. *)
Definition flatten (points : list vec3) : list Q :=
  concat (map (fun p : vec3 => let '(x, y, z) := p in [x; y; z]) points).

(** More concrete inputs. *)

Module Demo2.

(** The collaborators of [Demo], except that at least one point is always
    asked for. *)
Definition eager : Collaborators := {|
  slerp := Demo.lerp;
  get_position := Demo.vector_part;
  get_number_of_points := fun a b _ unit_length =>
    Z.max 1 (Qfloor (Demo.distance a b / unit_length));
  get_distance_on_sphere := fun a b _ => Demo.distance (Socket.xyz a) (Socket.xyz b);
  float32 := Demo.narrow
|}.

(** Socket [s] has id [100 + s]; the registry knows sockets 1 and 2. *)
Definition registry : Registry := {|
  socket_id := fun s => (100 + Z.of_nat s)%Z;
  get_item_by_id := fun i =>
    if (i =? 101)%Z then Some 1%nat else if (i =? 102)%Z then Some 2%nat else None
|}.

Definition fresh : Lifecycle.Fresh :=
  Lifecycle.mkFresh 7 1 (3 # 5) (Some [1; 1; 1; 1]%Q) 1 1.

(** A sphere with two free sockets far apart, and one with two free sockets
    at the same position. *)
Definition free_world : World :=
  mkWorld (Demo.two_sockets (1, 0, 0)%Q (- (3 # 5), 4 # 5, 0)%Q (1 # 20) [] [])
          ∅ ∅ 1 [] [].
Definition stacked_world : World :=
  mkWorld (Demo.two_sockets (1, 0, 0)%Q (1, 0, 0)%Q (1 # 20) [] [])
          ∅ ∅ 1 [] [].

(** The drawn scenario as a serializable item. *)
Definition item : Serialization.t :=
  Serialization.mk Demo.drawn 7 "edge" 0 None.

Definition record : Serialization.data :=
  Serialization.mkData 42 "edge" 3 102 101 (Some "detail"%string).

(** A camera with two queued pairs, and one with a queued position but no
    queued target. *)
Definition two_queued : Camera.t :=
  Camera.with_target_stack [(5, 0, 0)%Q; (9, 0, 0)%Q]
    (Camera.with_movement_stack [(5, 0, 3)%Q; (9, 0, 3)%Q] Camera._init_variables).
Definition unbalanced : Camera.t :=
  Camera.with_movement_stack [(5, 0, 3)%Q] Camera._init_variables.

End Demo2.

(** ** Vocabulary of the statements *)

Module Backrefs.
Import SurfaceEdge.

(** How many back-references to the edge socket [s] holds. *)
Definition backrefs (st : State) (s : socket_ref) : nat :=
  count_occ Nat.eq_dec (edges_of st s) (id (self st)).

(** Socket [s] holds a back-reference to the edge. *)
Definition holds_edge (st : State) (s : socket_ref) : Prop :=
  In (id (self st)) (edges_of st s).

(** How many endpoints of the edge are socket [s]. *)
Definition endpoints_at (e : t) (s : socket_ref) : nat :=
  (if decide (_start_socket e = Some s) then 1 else 0)
  + (if decide (_end_socket e = Some s) then 1 else 0).

(** Every socket holds one back-reference per endpoint attached to it, and
    no other: the state the constructor and the two setters keep. *)
Definition backrefs_consistent (st : State) : Prop :=
  forall s, backrefs st s = endpoints_at (self st) s.

(** Detaching from [old] takes one back-reference away at [old]; attaching
    to [new] adds one at [new]. *)
Definition detached (old : option socket_ref) (s : socket_ref) (n : nat) : nat :=
  if decide (old = Some s) then pred n else n.
Definition attached (new : option socket_ref) (s : socket_ref) (n : nat) : nat :=
  if decide (new = Some s) then S n else n.

End Backrefs.

(** The raw OpenGL draw calls among rendering calls, and the calls into the
    shader abstraction. *)
Definition is_raw_draw (c : call) : bool :=
  match c with
  | glDrawArrays _ _ => true
  | _ => false
  end.
Definition is_fat_line (c : call) : bool :=
  match c with
  | draw_edge _ _ _ _ _ => true
  | _ => false
  end.

(** The calls one [draw] of the edge [e] issues, in order. *)
Definition draw_issued (e : SurfaceEdge.t) : list call :=
  let col := if SurfaceEdge.truthy_color (SurfaceEdge.color e)
             then default [] (SurfaceEdge.color e)
             else [0; 0; 0; 1 # 2]%Q in
  [draw_edge sphere_shader (SurfaceEdge.pos_array e) (3 # 2) col false;
   draw_edge model_shader (SurfaceEdge.pos_array e) 4 col false]
  ++ match SurfaceEdge.vertices e with
     | [] => []
     | _ :: _ =>
         [glBindVertexArray (SurfaceEdge.mesh_id e);
          glBindBuffer (SurfaceEdge.buffer_id e);
          glBufferData (Z.of_nat (length (SurfaceEdge.vertices e)))
                       (SurfaceEdge.vertices e);
          glEnableVertexAttribArray 0;
          glVertexAttribPointer 0 3 12;
          glDrawArrays 0 2;
          glBindBuffer 0;
          glBindVertexArray 0]
     end.

(** * Properties *)

(** Unfolds the sequencing of a method body. *)
Ltac run :=
  unfold mbind, M_bind, mret, M_ret, bind, ret, raise, gets, modify,
    try_except, exec, result in *;
  cbn [fst snd] in *.

(** ** Lists of back-references *)

Lemma count_occ_remove_first_eq (e : nat) (l : list nat) :
  count_occ Nat.eq_dec (remove_first e l) e = pred (count_occ Nat.eq_dec l e).
Proof.
  induction l as [|x l IH]; cbn; [reflexivity|].
  destruct (Nat.eq_dec x e) as [->|Hne]; [reflexivity|].
  cbn. destruct (Nat.eq_dec x e); [contradiction|exact IH].
Qed.

Lemma count_occ_remove_first_ne (e x : nat) (l : list nat) :
  x <> e ->
  count_occ Nat.eq_dec (remove_first e l) x = count_occ Nat.eq_dec l x.
Proof.
  intros Hne. induction l as [|y l IH]; cbn; [reflexivity|].
  destruct (Nat.eq_dec y e) as [->|Hye].
  - destruct (Nat.eq_dec e x); [congruence|reflexivity].
  - cbn. destruct (Nat.eq_dec y x); rewrite IH; reflexivity.
Qed.

Lemma count_occ_snoc_eq (e : nat) (l : list nat) :
  count_occ Nat.eq_dec (l ++ [e]) e = S (count_occ Nat.eq_dec l e).
Proof.
  rewrite count_occ_app. cbn. destruct (Nat.eq_dec e e); [lia|contradiction].
Qed.

Lemma count_occ_snoc_ne (e x : nat) (l : list nat) :
  x <> e -> count_occ Nat.eq_dec (l ++ [e]) x = count_occ Nat.eq_dec l x.
Proof.
  intros Hne. rewrite count_occ_app. cbn.
  destruct (Nat.eq_dec e x); [congruence|lia].
Qed.

Module EdgeFacts.
Import SurfaceEdge.

(** *** update_position without both endpoints *)

Section Geometry.
Context `{Collaborators}.

(** C6.  An edge with zero or one endpoint socket: [update_position]
    returns normally and changes nothing at all, so [pos_array], the
    vertex buffer and the collision handle are as they were, no rendering
    call is issued, and an edge that had no polyline still has none. *)
Theorem update_position_missing_endpoint_noop (st : State) :
  _start_socket (self st) = None \/ _end_socket (self st) = None ->
  update_position st = (Returned tt, st)
  /\ pos_array (self (exec update_position st)) = pos_array (self st)
  /\ vertices (self (exec update_position st)) = vertices (self st)
  /\ buffer (self (exec update_position st)) = buffer (self st)
  /\ collision_object_id (self (exec update_position st))
     = collision_object_id (self st)
  /\ calls (world (exec update_position st)) = calls (world st).
Proof.
  intros Hmissing.
  assert (Hnoop : update_position st = (Returned tt, st)).
  { unfold update_position, start_socket, end_socket. run.
    destruct Hmissing as [-> | ->]; [reflexivity|].
    destruct (_start_socket (self st)); reflexivity. }
  split; [exact Hnoop|].
  unfold exec. rewrite Hnoop. cbn. repeat split; reflexivity.
Qed.

End Geometry.

(** *** remove on an edge with a missing endpoint *)

(** C9.  When at least one endpoint socket is [None], [remove] raises
    [AttributeError] before it reaches [remove_item]: the sphere's item
    collection and the collision registry are as they were. *)
Theorem remove_missing_endpoint_raises (st : State) :
  _start_socket (self st) = None \/ _end_socket (self st) = None ->
  result remove st = Raised AttributeError
  /\ items (world (exec remove st)) = items (world st)
  /\ collision_objects (world (exec remove st)) = collision_objects (world st).
Proof.
  intros Hmissing.
  unfold remove, start_socket, end_socket, socket_remove_edge. run.
  destruct (_start_socket (self st)) as [a|] eqn:Hs.
  - destruct Hmissing as [Hs' | He]; [discriminate|].
    cbn. rewrite He. cbn. repeat split; reflexivity.
  - cbn. repeat split; reflexivity.
Qed.

(** *** Drag tracking *)

(** C8.  [is_dragging]: a drag-start signal on an edge that is not dragged
    makes it dragged; a drag-end signal on a dragged edge makes it not
    dragged and appends exactly one history entry, labelled "edge moved";
    a signal equal to the current state returns that state and changes
    nothing. *)
Theorem is_dragging_transitions (st : State) (value : bool) :
  let moved := _edge_moved (self st) in
  let st' := exec (is_dragging value) st in
  (moved = false -> value = true ->
     result (is_dragging value) st = Returned true
     /\ _edge_moved (self st') = true
     /\ history (world st') = history (world st))
  /\ (moved = true -> value = false ->
     result (is_dragging value) st = Returned false
     /\ _edge_moved (self st') = false
     /\ history (world st') = history (world st) ++ [("edge moved"%string, true)])
  /\ (moved = value ->
     is_dragging value st = (Returned moved, st)).
Proof.
  unfold is_dragging, store_history. run.
  destruct (_edge_moved (self st)) eqn:Hm, value; cbn;
    repeat split; try discriminate; reflexivity.
Qed.

(** *** Endpoint setters and back-references *)

Import Backrefs.

Lemma backrefs_alter_remove (e : edge_ref) (f : socket_ref -> Socket.t) (a s : socket_ref) :
  count_occ Nat.eq_dec (Socket.edges (alter (Socket.remove_edge e) a f s)) e
  = detached (Some a) s (count_occ Nat.eq_dec (Socket.edges (f s)) e).
Proof.
  unfold detached, alter, fn_alter.
  destruct (decide (a = s)) as [->|Hne].
  - rewrite decide_True by reflexivity. cbn. apply count_occ_remove_first_eq.
  - rewrite decide_False by congruence. reflexivity.
Qed.

Lemma backrefs_alter_add (e : edge_ref) (f : socket_ref -> Socket.t) (a s : socket_ref) :
  count_occ Nat.eq_dec (Socket.edges (alter (Socket.add_edge e) a f s)) e
  = attached (Some a) s (count_occ Nat.eq_dec (Socket.edges (f s)) e).
Proof.
  unfold attached, alter, fn_alter.
  destruct (decide (a = s)) as [->|Hne].
  - rewrite decide_True by reflexivity. cbn. apply count_occ_snoc_eq.
  - rewrite decide_False by congruence. reflexivity.
Qed.

Lemma set_start_socket_returns (st : State) (new : option socket_ref) :
  result (set_start_socket new) st = Returned tt
  /\ self (exec (set_start_socket new) st) = with_start_socket new (self st).
Proof.
  unfold set_start_socket, start_socket, socket_remove_edge, socket_add_edge. run.
  destruct (_start_socket (self st)), new; cbn; split; reflexivity.
Qed.

Lemma set_end_socket_returns (st : State) (new : option socket_ref) :
  result (set_end_socket new) st = Returned tt
  /\ self (exec (set_end_socket new) st) = with_end_socket new (self st).
Proof.
  unfold set_end_socket, end_socket, socket_remove_edge, socket_add_edge. run.
  destruct (_end_socket (self st)), new; cbn; split; reflexivity.
Qed.

Lemma set_start_socket_backrefs (st : State) (new : option socket_ref) (s : socket_ref) :
  backrefs (exec (set_start_socket new) st) s
  = attached new s (detached (_start_socket (self st)) s (backrefs st s)).
Proof.
  unfold set_start_socket, start_socket, socket_remove_edge, socket_add_edge. run.
  destruct (_start_socket (self st)) as [a|], new as [b|]; cbn.
  - unfold backrefs, edges_of. cbn. rewrite backrefs_alter_add.
    f_equal. apply backrefs_alter_remove.
  - unfold backrefs at 1, edges_of. cbn. rewrite backrefs_alter_remove. reflexivity.
  - unfold backrefs at 1, edges_of. cbn. rewrite backrefs_alter_add. reflexivity.
  - reflexivity.
Qed.

Lemma set_end_socket_backrefs (st : State) (new : option socket_ref) (s : socket_ref) :
  backrefs (exec (set_end_socket new) st) s
  = attached new s (detached (_end_socket (self st)) s (backrefs st s)).
Proof.
  unfold set_end_socket, end_socket, socket_remove_edge, socket_add_edge. run.
  destruct (_end_socket (self st)) as [a|], new as [b|]; cbn.
  - unfold backrefs, edges_of. cbn. rewrite backrefs_alter_add.
    f_equal. apply backrefs_alter_remove.
  - unfold backrefs at 1, edges_of. cbn. rewrite backrefs_alter_remove. reflexivity.
  - unfold backrefs at 1, edges_of. cbn. rewrite backrefs_alter_add. reflexivity.
  - reflexivity.
Qed.

(** The setters keep the back-references consistent with the endpoints. *)
Lemma set_start_socket_consistent (st : State) (new : option socket_ref) :
  backrefs_consistent st -> backrefs_consistent (exec (set_start_socket new) st).
Proof.
  intros Hc s. rewrite set_start_socket_backrefs, Hc.
  destruct (set_start_socket_returns st new) as [_ ->].
  unfold attached, detached, endpoints_at. cbn.
  repeat case_decide; lia.
Qed.

Lemma set_end_socket_consistent (st : State) (new : option socket_ref) :
  backrefs_consistent st -> backrefs_consistent (exec (set_end_socket new) st).
Proof.
  intros Hc s. rewrite set_end_socket_backrefs, Hc.
  destruct (set_end_socket_returns st new) as [_ ->].
  unfold attached, detached, endpoints_at. cbn.
  repeat case_decide; lia.
Qed.

Lemma holds_edge_backrefs (st : State) (s : socket_ref) :
  holds_edge st s <-> (0 < backrefs st s)%nat.
Proof. unfold holds_edge, backrefs. apply count_occ_In. Qed.

Lemma bind_returned {S A B : Type} (m : M S A) (k : A -> M S B) (s s' : S) (a : A) :
  m s = (Returned a, s') -> (m ≫= k) s = k a s'.
Proof. intros Hm. run. rewrite Hm. reflexivity. Qed.

Lemma bind_raised {S A B : Type} (m : M S A) (k : A -> M S B) (s s' : S) (e : exn) :
  m s = (Raised e, s') -> (m ≫= k) s = (Raised e, s').
Proof. intros Hm. run. rewrite Hm. reflexivity. Qed.



(** *** remove on an edge with both endpoints *)

Lemma remove_both_endpoints (st : State) (a b : socket_ref) :
  _start_socket (self st) = Some a -> _end_socket (self st) = Some b ->
  result remove st = Returned tt
  /\ self (exec remove st) = self st
  /\ (forall s, backrefs (exec remove st) s
              = detached (Some b) s (detached (Some a) s (backrefs st s)))
  /\ items (world (exec remove st)) = items (world st) ∖ {[ id (self st) ]}
  /\ collision_objects (world (exec remove st))
     = if truthy_id (collision_object_id (self st))
       then delete (id (self st)) (collision_objects (world st))
       else collision_objects (world st).
Proof.
  intros Hs He.
  unfold remove, start_socket, end_socket, socket_remove_edge, remove_item,
    delete_collision_object. run.
  rewrite Hs. cbn. rewrite He. cbn.
  destruct (truthy_id (collision_object_id (self st))); cbn;
    (split; [reflexivity|]); (split; [reflexivity|]);
    (split; [|split; reflexivity]);
    intros s; unfold backrefs, edges_of; cbn;
    rewrite !backrefs_alter_remove; reflexivity.
Qed.

(** C5.  An edge with both endpoint sockets set, whose back-references are
    consistent with its endpoints, and which is registered for picking under
    its collision handle [h]: [remove] returns normally; afterwards no
    socket holds a back-reference to the edge and the edge is no item of
    the sphere.  The collision handle is released when [h] is not 0.  When
    [h] is 0 the truth test [if self.collision_object_id:] fails,
    [delete_collision_object] is not called, and the edge is still
    registered under handle 0 after [remove]. *)
Theorem remove_releases_only_nonzero_handle (st : State) (a b : socket_ref)
    (h : Z) (points : list vec3) :
  _start_socket (self st) = Some a ->
  _end_socket (self st) = Some b ->
  backrefs_consistent st ->
  collision_object_id (self st) = Some h ->
  collision_objects (world st) !! id (self st) = Some (h, points) ->
  let st' := exec remove st in
  result remove st = Returned tt
  /\ ~ holds_edge st' a /\ ~ holds_edge st' b
  /\ (forall s, ~ holds_edge st' s)
  /\ (id (self st) ∉ items (world st'))
  /\ (h <> 0%Z -> collision_objects (world st') !! id (self st) = None)
  /\ (h = 0%Z ->
      collision_objects (world st') !! id (self st) = Some (0%Z, points)).
Proof.
  intros Hs He Hc Hh Hreg st'.
  destruct (remove_both_endpoints st a b Hs He) as (Hr & Hself & Hb & Hi & Hco).
  assert (Hnone : forall s, ~ holds_edge st' s).
  { intros s. rewrite holds_edge_backrefs. subst st'. rewrite Hb, (Hc s).
    unfold detached, endpoints_at. rewrite Hs, He.
    repeat case_decide; try congruence; cbn; lia. }
  split; [exact Hr|]. split; [apply Hnone|]. split; [apply Hnone|].
  split; [exact Hnone|]. subst st'. split; [|split].
  - rewrite Hi. intros Hin. apply elem_of_difference in Hin as [_ Hout].
    apply Hout, elem_of_singleton. reflexivity.
  - intros Hnz. rewrite Hco, Hh. cbn.
    destruct (h =? 0)%Z eqn:E; [apply Z.eqb_eq in E; contradiction|].
    cbn. apply lookup_delete_eq.
  - intros Hz. rewrite Hco, Hh. subst h. cbn. exact Hreg.
Qed.

(** *** The polyline *)

Lemma with_pos_array_same (e : t) : with_pos_array (pos_array e) e = e.
Proof. destruct e; reflexivity. Qed.

Lemma load_mesh_into_opengl_returns (st : State) :
  result load_mesh_into_opengl st = Returned tt
  /\ self (exec load_mesh_into_opengl st) = self st
  /\ sockets (world (exec load_mesh_into_opengl st)) = sockets (world st)
  /\ collision_objects (world (exec load_mesh_into_opengl st))
     = collision_objects (world st).
Proof.
  unfold load_mesh_into_opengl, issue. run. cbn. repeat split; reflexivity.
Qed.

Section Polyline.
Context `{Collaborators}.

(** The loop of [update_line_points_position] appends one interpolated
    position per index, in order. *)
Lemma loop_appends (start end_ : quat) (step : Q) (l : list Z) (st : State) :
  foldr (fun (i : Z) (rest : M State unit) =>
           let pos_orientation_offset := slerp start end_ (step * inject_Z i) in
           let pos := get_position pos_orientation_offset in
           modify (on_self (fun e => with_pos_array (pos_array e ++ [pos]) e)) ;;
           rest)
        (mret tt) l st
  = (Returned tt,
     on_self (with_pos_array
                (pos_array (self st)
                 ++ map (fun i => get_position (slerp start end_ (step * inject_Z i))) l))
             st).
Proof.
  revert st. induction l as [|i l IH]; intros st.
  - cbn. run. rewrite app_nil_r. unfold on_self. rewrite with_pos_array_same.
    destruct st; reflexivity.
  - cbn [foldr map]. run. rewrite IH. cbn. rewrite <- app_assoc. reflexivity.
Qed.

Lemma get_edge_start_end_eq (st : State) (a b : socket_ref) :
  _start_socket (self st) = Some a -> _end_socket (self st) = Some b ->
  let sa := sockets (world st) a in
  let eb := sockets (world st) b in
  let ln := get_distance_on_sphere eb sa (radius (self st)) in
  get_edge_start_end st
  = if Qeq_bool ln 0 then (Raised ZeroDivisionError, st)
    else (Returned (slerp (Socket.pos_orientation_offset sa)
                          (Socket.pos_orientation_offset eb)
                          (Socket.node_disc_radius sa / ln),
                    Socket.pos_orientation_offset eb), st).
Proof.
  intros Hs He. cbn zeta.
  unfold get_edge_start_end, start_socket, end_socket, attr, py_div. run.
  rewrite Hs, He. cbn.
  destruct (Qeq_bool _ 0); reflexivity.
Qed.

(** With both endpoints set and a non-zero arc length,
    [update_line_points_position] returns normally; the polyline holds one
    interpolated position per index of [range n], and the edge is registered
    for picking under a fresh handle. *)
Lemma update_line_points_position_eq (st : State) (a b : socket_ref)
    (n : Z) (step : Q) :
  _start_socket (self st) = Some a -> _end_socket (self st) = Some b ->
  let sa := sockets (world st) a in
  let eb := sockets (world st) b in
  let ln := get_distance_on_sphere eb sa (radius (self st)) in
  let start := slerp (Socket.pos_orientation_offset sa)
                     (Socket.pos_orientation_offset eb)
                     (Socket.node_disc_radius sa / ln) in
  let points := map (fun i => get_position
                       (slerp start (Socket.pos_orientation_offset eb)
                              (step * inject_Z i))) (range n) in
  Qeq_bool ln 0 = false ->
  result (update_line_points_position n step) st = Returned tt
  /\ pos_array (self (exec (update_line_points_position n step) st)) = points
  /\ collision_object_id (self (exec (update_line_points_position n step) st))
     = Some (next_collision_id (world st))
  /\ collision_objects (world (exec (update_line_points_position n step) st))
       !! id (self st)
     = Some (next_collision_id (world st), points).
Proof.
  intros Hs He sa eb ln start points Hln.
  unfold update_line_points_position.
  pose proof (get_edge_start_end_eq st a b Hs He) as Hg. cbn zeta in Hg.
  fold sa eb ln in Hg. rewrite Hln in Hg. fold start in Hg.
  unfold result, exec.
  rewrite (bind_returned _ _ _ _ _ Hg). cbn beta iota.
  erewrite bind_returned by (unfold modify; reflexivity).
  erewrite bind_returned by apply loop_appends.
  unfold start_socket, attr, create_collision_object, update_buffers. run.
  cbn. rewrite Hs. cbn.
  repeat split; try reflexivity.
  apply lookup_insert_eq.
Qed.

Lemma update_position_eq (st : State) (a b : socket_ref) :
  _start_socket (self st) = Some a -> _end_socket (self st) = Some b ->
  let sa := sockets (world st) a in
  let eb := sockets (world st) b in
  let n := get_number_of_points (Socket.xyz sa) (Socket.xyz eb)
             (radius (self st)) (unit_length (self st)) in
  let step := if (1 <? n)%Z then (1 / inject_Z n)%Q else 1%Q in
  update_position st
  = ((if (0 <? n)%Z then update_line_points_position n step else mret tt) ;;
     load_mesh_into_opengl) st.
Proof.
  intros Hs He. cbn zeta.
  unfold update_position at 1, start_socket, end_socket, attr.
  unfold mbind at 1 2 3 4 5 6, M_bind at 1 2 3 4 5 6, bind at 1 2 3 4 5 6, gets.
  rewrite Hs, He. reflexivity.
Qed.

Lemma Qeq_bool_false (x : Q) : ~ (x == 0)%Q -> Qeq_bool x 0 = false.
Proof.
  intros Hx. destruct (Qeq_bool x 0) eqn:E; [|reflexivity].
  apply Qeq_bool_iff in E. contradiction.
Qed.

Lemma Qeq_bool_true (x : Q) : (x == 0)%Q -> Qeq_bool x 0 = true.
Proof. intros Hx. apply Qeq_bool_iff. exact Hx. Qed.

Lemma Qdiv_pos (r ln : Q) : (0 < ln)%Q -> (0 < r)%Q -> (0 < r / ln)%Q.
Proof.
  intros Hln Hr. apply Qlt_shift_div_l; [exact Hln|]. rewrite Qmult_0_l. exact Hr.
Qed.

Lemma Qdiv_lt_1 (r ln : Q) : (0 < ln)%Q -> (r / ln < 1)%Q <-> (r < ln)%Q.
Proof.
  intros Hln. split; intros Hlt.
  - assert (Hm : (r / ln * ln < 1 * ln)%Q) by (apply Qmult_lt_compat_r; assumption).
    rewrite Qmult_1_l in Hm. unfold Qdiv in Hm.
    rewrite <- Qmult_assoc, (Qmult_comm (/ ln)), Qmult_inv_r, Qmult_1_r in Hm;
      [exact Hm|]. intros E. rewrite E in Hln. exact (Qlt_irrefl _ Hln).
  - apply Qlt_shift_div_r; [exact Hln|]. rewrite Qmult_1_l. exact Hlt.
Qed.

Lemma Qdiv_gt_1 (r ln : Q) : (0 < ln)%Q -> (ln < r)%Q -> (1 < r / ln)%Q.
Proof.
  intros Hln Hlt. apply Qlt_shift_div_l; [exact Hln|]. rewrite Qmult_1_l. exact Hlt.
Qed.

(** C1.  Both endpoint sockets set, a non-zero arc length, and a point count
    of 4: [update_position] returns normally and [pos_array] holds exactly
    four points, interpolated from the clipped start orientation
    [slerp(start, end, r / ln)] towards the end orientation at the
    parameters 0, 1/4, 2/4 and 3/4.  The last parameter is 3/4, not 1: the
    loop runs over [range(n)] with step [1 / n]. *)
Theorem update_position_four_points (st : State) (a b : socket_ref) :
  _start_socket (self st) = Some a -> _end_socket (self st) = Some b ->
  let sa := sockets (world st) a in
  let eb := sockets (world st) b in
  let ln := get_distance_on_sphere eb sa (radius (self st)) in
  let start := slerp (Socket.pos_orientation_offset sa)
                     (Socket.pos_orientation_offset eb)
                     (Socket.node_disc_radius sa / ln) in
  let point (t : Q) :=
    get_position (slerp start (Socket.pos_orientation_offset eb) t) in
  get_number_of_points (Socket.xyz sa) (Socket.xyz eb)
    (radius (self st)) (unit_length (self st)) = 4%Z ->
  ~ (ln == 0)%Q ->
  result update_position st = Returned tt
  /\ pos_array (self (exec update_position st))
     = [point (0 # 4); point (1 # 4); point (2 # 4); point (3 # 4)]
  /\ length (pos_array (self (exec update_position st))) = 4%nat
  /\ ~ (3 # 4 == 1)%Q.
Proof.
  intros Hs He sa eb ln start point Hn Hln.
  apply Qeq_bool_false in Hln.
  pose proof (update_position_eq st a b Hs He) as Hu. cbn zeta in Hu.
  fold sa eb in Hu. rewrite Hn in Hu. cbn [Z.ltb Z.compare Pos.compare Pos.compare_cont] in Hu.
  destruct (update_line_points_position_eq st a b 4 (1 / inject_Z 4) Hs He Hln)
    as (Hr & Hp & _).
  destruct (load_mesh_into_opengl_returns
              (exec (update_line_points_position 4 (1 / inject_Z 4)) st))
    as (Hlr & Hls & _).
  unfold result, exec in *. rewrite Hu.
  destruct (update_line_points_position 4 (1 / inject_Z 4) st) as [o st1] eqn:E.
  cbn [fst snd] in *. subst o.
  rewrite (bind_returned _ _ _ _ _ E).
  split; [exact Hlr|]. rewrite Hls, Hp.
  split; [reflexivity|]. split; [reflexivity|].
  intros Heq. discriminate Heq.
Qed.

(** C3, as the code has it.  Both endpoint sockets set, a positive arc
    length [ln] between them and a positive disc radius [r]:
    [get_edge_start_end] returns the start orientation
    [slerp(start, end, t)] with [t = r / ln], and [t > 0]; the first point
    of the polyline is the position of [slerp(adjusted start, end, 0)].
    The fraction [t] is below 1 exactly when [r < ln]: nothing bounds it
    otherwise. *)
Theorem clearance_start_orientation (st : State) (a b : socket_ref) :
  _start_socket (self st) = Some a -> _end_socket (self st) = Some b ->
  let sa := sockets (world st) a in
  let eb := sockets (world st) b in
  let r := Socket.node_disc_radius sa in
  let ln := get_distance_on_sphere eb sa (radius (self st)) in
  let t := (r / ln)%Q in
  let start := slerp (Socket.pos_orientation_offset sa)
                     (Socket.pos_orientation_offset eb) t in
  (0 < ln)%Q -> (0 < r)%Q ->
  get_edge_start_end st
    = (Returned (start, Socket.pos_orientation_offset eb), st)
  /\ (0 < t)%Q
  /\ ((t < 1)%Q <-> (r < ln)%Q)
  /\ (forall n step, (0 < n)%Z ->
        head (pos_array (self (exec (update_line_points_position n step) st)))
        = Some (get_position
                  (slerp start (Socket.pos_orientation_offset eb)
                         (step * inject_Z 0)))).
Proof.
  intros Hs He sa eb r ln t start Hln Hr.
  assert (Hnz : Qeq_bool ln 0 = false).
  { apply Qeq_bool_false. intros E. rewrite E in Hln. exact (Qlt_irrefl _ Hln). }
  split.
  { pose proof (get_edge_start_end_eq st a b Hs He) as Hg. cbn zeta in Hg.
    fold sa eb ln in Hg. rewrite Hnz in Hg. exact Hg. }
  split; [apply Qdiv_pos; assumption|].
  split; [apply Qdiv_lt_1; assumption|].
  intros n step Hn.
  destruct (update_line_points_position_eq st a b n step Hs He Hnz) as (_ & Hp & _).
  rewrite Hp. unfold range.
  destruct (Z.to_nat n) as [|k] eqn:Ek; [lia|]. reflexivity.
Qed.

(** C10, as the code has it.  [get_edge_start_end] divides the disc radius
    by the arc length with no guard and no clamp.  With a zero arc length it
    raises [ZeroDivisionError]; [update_position] then raises too when the
    point count is positive, leaving the edge as it was, and returns
    normally when the point count is not positive, since the division is
    behind [if n > 0].  With a disc radius above a positive arc length the
    clearance fraction exceeds 1. *)
Theorem unguarded_clearance_division (st : State) (a b : socket_ref) :
  _start_socket (self st) = Some a -> _end_socket (self st) = Some b ->
  let sa := sockets (world st) a in
  let eb := sockets (world st) b in
  let r := Socket.node_disc_radius sa in
  let ln := get_distance_on_sphere eb sa (radius (self st)) in
  let n := get_number_of_points (Socket.xyz sa) (Socket.xyz eb)
             (radius (self st)) (unit_length (self st)) in
  ((ln == 0)%Q ->
     get_edge_start_end st = (Raised ZeroDivisionError, st)
     /\ ((0 < n)%Z -> update_position st = (Raised ZeroDivisionError, st))
     /\ ((n <= 0)%Z ->
           result update_position st = Returned tt
           /\ self (exec update_position st) = self st))
  /\ ((0 < ln)%Q -> (ln < r)%Q ->
     get_edge_start_end st
       = (Returned (slerp (Socket.pos_orientation_offset sa)
                          (Socket.pos_orientation_offset eb) (r / ln),
                    Socket.pos_orientation_offset eb), st)
     /\ (1 < r / ln)%Q).
Proof.
  intros Hs He sa eb r ln n.
  pose proof (get_edge_start_end_eq st a b Hs He) as Hg. cbn zeta in Hg.
  fold sa eb ln r in Hg.
  pose proof (update_position_eq st a b Hs He) as Hu. cbn zeta in Hu.
  fold sa eb n in Hu.
  split.
  - intros Hz. apply Qeq_bool_true in Hz. rewrite Hz in Hg.
    split; [exact Hg|]. split.
    + intros Hn. rewrite Hu.
      destruct (0 <? n)%Z eqn:E; [|apply Z.ltb_ge in E; lia].
      apply bind_raised. unfold update_line_points_position.
      apply bind_raised. exact Hg.
    + intros Hn. unfold result, exec. rewrite Hu.
      destruct (0 <? n)%Z eqn:E; [apply Z.ltb_lt in E; lia|].
      erewrite bind_returned by reflexivity.
      destruct (load_mesh_into_opengl_returns st) as (Hlr & Hls & _).
      split; assumption.
  - intros Hln Hlt.
    assert (Hnz : Qeq_bool ln 0 = false).
    { apply Qeq_bool_false. intros E. rewrite E in Hln. exact (Qlt_irrefl _ Hln). }
    rewrite Hnz in Hg. split; [exact Hg|]. apply Qdiv_gt_1; assumption.
Qed.

End Polyline.

(** *** draw *)

(** C2, as the code has it.  [draw] returns normally and always issues the
    two fat-line passes first, over [pos_array], with the edge's color
    (black at half opacity when the color is unset) and [dotted = False]:
    width 1.5 through the sphere's shader and width 4 through the model's
    shader.  What follows is behind the test of the vertex count: with no
    vertices nothing more is issued, no OpenGL call at all; with vertices,
    OpenGL calls follow, among them one raw line draw and no further
    fat-line pass. *)
Theorem draw_fat_lines_then_guarded_raw_draw (st : State) :
  let e := self st in
  let col := if truthy_color (color e) then default [] (color e)
             else [0; 0; 0; 1 # 2]%Q in
  result draw st = Returned tt
  /\ exists gl : list call,
       calls (world (exec draw st))
       = calls (world st)
         ++ [draw_edge sphere_shader (pos_array e) (3 # 2) col false;
             draw_edge model_shader (pos_array e) 4 col false]
         ++ gl
       /\ (vertices e = [] -> gl = [])
       /\ (vertices e <> [] ->
            length (filter is_raw_draw gl) = 1%nat
            /\ filter is_fat_line gl = []).
Proof.
  cbn zeta. unfold draw, issue. run. cbn.
  destruct (vertices (self st)) as [|v vs] eqn:Ev; cbn.
  - split; [reflexivity|]. exists []. rewrite <- !app_assoc. cbn.
    split; [reflexivity|]. split; [reflexivity|]. intros Hne. contradiction.
  - split; [reflexivity|]. eexists. rewrite <- !app_assoc. cbn.
    split; [reflexivity|]. split; [discriminate|]. intros _. split; reflexivity.
Qed.

End EdgeFacts.

Module CameraFacts.
Import Camera.

Section View.
Context `{Pyrr}.

(** C7.  A camera whose queue holds exactly one (position, target) pair:
    [draw] returns normally, the camera is at that position looking at that
    target, and the queue is empty; the view matrix published is the look-at
    matrix of that pair.  A second [draw], on the empty queue, returns
    normally and leaves the camera exactly as the first one left it:
    position, target and queue are unchanged and the same view matrix is
    published again. *)
Theorem draw_applies_queued_pair (c : t) (p q : vec3) :
  movement_stack c = [p] -> target_stack c = [q] ->
  let c1 := exec draw c in
  let c2 := exec draw c1 in
  let direction := normalize (vsub p q) in
  let up := cross direction (normalize (cross (0, 1, 0)%Q direction)) in
  result draw c = Returned tt
  /\ xyz c1 = p /\ target c1 = q
  /\ movement_stack c1 = [] /\ target_stack c1 = []
  /\ view_loc c1 = Some (create_look_at p q up)
  /\ result draw c1 = Returned tt
  /\ xyz c2 = p /\ target c2 = q
  /\ movement_stack c2 = [] /\ target_stack c2 = []
  /\ view_loc c2 = Some (create_look_at p q up)
  /\ c2 = c1.
Proof.
  intros Hm Ht. cbn zeta.
  destruct c as [tg pos d dir u ms_ mst tst v]. cbn in Hm, Ht. subst mst tst.
  unfold draw, get_view_matrix, _set_view, get_distance_to_target, set_view_loc,
    first_item, del_first. run. cbn.
  repeat split; reflexivity.
Qed.

End View.

End CameraFacts.

(** * The statements on concrete inputs *)

Module Scenarios.
Import SurfaceEdge Backrefs.

Lemma drawn_consistent : backrefs_consistent Demo.drawn.
Proof. intros s. destruct s as [|[|[|s]]]; reflexivity. Qed.


(** The end-to-end scenario: four points; the first is off the start
    socket's position and the last is off the end socket's position. *)
Lemma update_position_four_points_witness :
  let st' := exec (@update_position Demo.collaborators) Demo.scenario in
  result (@update_position Demo.collaborators) Demo.scenario = Returned tt
  /\ length (pos_array (self st')) = 4%nat
  /\ Demo.vec3_eqb (Socket.xyz (sockets (world st') 1%nat))
       <$> head (pos_array (self st')) = Some false
  /\ Demo.vec3_eqb (Socket.xyz (sockets (world st') 2%nat))
       <$> last (pos_array (self st')) = Some false.
Proof.
  cbn zeta.
  destruct (@EdgeFacts.update_position_four_points Demo.collaborators
              Demo.scenario 1%nat 2%nat eq_refl eq_refl eq_refl)
    as (Hr & Hp & Hl & _).
  { intros E. vm_compute in E. discriminate E. }
  split; [exact Hr|]. split; [exact Hl|]. rewrite Hp.
  split; vm_compute; reflexivity.
Defined.

(** An edge under construction, only its start socket set:
    [update_position] changes nothing. *)
Lemma update_position_missing_endpoint_noop_witness :
  _end_socket (self Demo.dangling) = None
  /\ @update_position Demo.collaborators Demo.dangling = (Returned tt, Demo.dangling).
Proof.
  split; [reflexivity|].
  apply (@EdgeFacts.update_position_missing_endpoint_noop Demo.collaborators
           Demo.dangling).
  right. reflexivity.
Defined.

(** The same edge: [remove] raises and the sphere still holds the edge. *)
Lemma remove_missing_endpoint_raises_witness :
  result remove Demo.dangling = Raised AttributeError
  /\ items (world (exec remove Demo.dangling)) = items (world Demo.dangling)
  /\ 7%nat ∈ items (world (exec remove Demo.dangling)).
Proof.
  destruct (EdgeFacts.remove_missing_endpoint_raises Demo.dangling) as (Hr & Hi & _).
  { right. reflexivity. }
  split; [exact Hr|]. split; [exact Hi|].
  rewrite Hi. vm_compute. reflexivity.
Defined.

Lemma first_drawn_consistent : backrefs_consistent Demo.first_drawn.
Proof. intros s. destruct s as [|[|[|s]]]; reflexivity. Qed.

(** The drawn scenario, registered under handle 1, removed: no socket holds
    the edge, the sphere has forgotten it and its collision handle is
    released.  The same scenario registered under handle 0, removed: the
    edge is still registered for picking. *)
Lemma remove_releases_only_nonzero_handle_witness :
  (collision_object_id (self Demo.drawn) = Some 1%Z
   /\ result remove Demo.drawn = Returned tt
   /\ ~ holds_edge (exec remove Demo.drawn) 1%nat
   /\ ~ holds_edge (exec remove Demo.drawn) 2%nat
   /\ (7%nat ∉ items (world (exec remove Demo.drawn)))
   /\ collision_objects (world (exec remove Demo.drawn)) !! 7%nat = None)
  /\ (collision_object_id (self Demo.first_drawn) = Some 0%Z
      /\ result remove Demo.first_drawn = Returned tt
      /\ ~ holds_edge (exec remove Demo.first_drawn) 1%nat
      /\ ~ holds_edge (exec remove Demo.first_drawn) 2%nat
      /\ (7%nat ∉ items (world (exec remove Demo.first_drawn)))
      /\ collision_objects (world (exec remove Demo.first_drawn)) !! 7%nat
         = Some (0%Z, pos_array (self Demo.first_drawn))).
Proof.
  split.
  - split; [reflexivity|].
    destruct (EdgeFacts.remove_releases_only_nonzero_handle Demo.drawn
                1%nat 2%nat 1%Z (pos_array (self Demo.drawn))
                eq_refl eq_refl drawn_consistent eq_refl eq_refl)
      as (Hr & Ha & Hb & _ & Hi & Hc & _).
    split; [exact Hr|]. split; [exact Ha|]. split; [exact Hb|].
    split; [exact Hi|]. apply Hc. discriminate.
  - split; [reflexivity|].
    destruct (EdgeFacts.remove_releases_only_nonzero_handle Demo.first_drawn
                1%nat 2%nat 0%Z (pos_array (self Demo.first_drawn))
                eq_refl eq_refl first_drawn_consistent eq_refl eq_refl)
      as (Hr & Ha & Hb & _ & Hi & _ & Hc).
    split; [exact Hr|]. split; [exact Ha|]. split; [exact Hb|].
    split; [exact Hi|]. apply Hc. reflexivity.
Defined.


(** The scenario's clearance: the fraction is positive and below 1. *)
Lemma clearance_start_orientation_witness :
  let sa := sockets (world Demo.scenario) 1%nat in
  let eb := sockets (world Demo.scenario) 2%nat in
  let t := (Socket.node_disc_radius sa / Demo.distance (Socket.xyz eb) (Socket.xyz sa))%Q in
  (t == 1 # 48)%Q
  /\ result (@get_edge_start_end Demo.collaborators) Demo.scenario
     = Returned (Demo.lerp (Socket.pos_orientation_offset sa)
                           (Socket.pos_orientation_offset eb) t,
                 Socket.pos_orientation_offset eb)
  /\ (0 < t)%Q /\ (t < 1)%Q.
Proof.
  cbn zeta. split; [reflexivity|].
  destruct (@EdgeFacts.clearance_start_orientation Demo.collaborators
              Demo.scenario 1%nat 2%nat eq_refl eq_refl)
    as (Hg & Hpos & Hlt & _).
  { reflexivity. }
  { reflexivity. }
  split; [unfold result; rewrite Hg; reflexivity|].
  split; [exact Hpos|]. apply Hlt. reflexivity.
Defined.

(** Two sockets at one position: the division raises; two sockets closer
    than the disc radius: the fraction is above 1. *)
Lemma unguarded_clearance_division_witness :
  @get_edge_start_end Demo.collaborators Demo.coincident
    = (Raised ZeroDivisionError, Demo.coincident)
  /\ (1 < Socket.node_disc_radius (sockets (world Demo.crowded) 1%nat)
          / Demo.distance (Socket.xyz (sockets (world Demo.crowded) 2%nat))
                          (Socket.xyz (sockets (world Demo.crowded) 1%nat)))%Q.
Proof.
  split.
  - destruct (@EdgeFacts.unguarded_clearance_division Demo.collaborators
                Demo.coincident 1%nat 2%nat eq_refl eq_refl) as (Hzero & _).
    destruct Hzero as (Hg & _); [reflexivity|exact Hg].
  - destruct (@EdgeFacts.unguarded_clearance_division Demo.collaborators
                Demo.crowded 1%nat 2%nat eq_refl eq_refl) as (_ & Hbig).
    destruct Hbig as (_ & Hgt); [reflexivity|reflexivity|exact Hgt].
Defined.

(** The queued camera: the first [draw] jumps to the queued pair, the second
    changes nothing. *)
Lemma draw_applies_queued_pair_witness :
  let c1 := exec (@Camera.draw Demo.pyrr) Demo.queued_camera in
  Camera.xyz c1 = (5, 0, 3)%Q /\ Camera.target c1 = (5, 0, 0)%Q
  /\ Camera.movement_stack c1 = [] /\ Camera.target_stack c1 = []
  /\ exec (@Camera.draw Demo.pyrr) c1 = c1.
Proof.
  cbn zeta.
  destruct (@CameraFacts.draw_applies_queued_pair Demo.pyrr Demo.queued_camera
              (5, 0, 3)%Q (5, 0, 0)%Q eq_refl eq_refl)
    as (_ & Hx & Ht & Hm & Hts & _ & _ & _ & _ & _ & _ & _ & Hsame).
  repeat split; assumption.
Defined.

(** ** Where the statements of the specification fail *)

(** C2 fails on the code.  An edge with no vertex at all: [draw] still
    issues two draw calls, the fat-line passes.  An edge with four uploaded
    points: the one raw line draw covers two vertices. *)
Lemma draw_counterexample :
  (vertices (self Demo.unattached) = []
   /\ calls (world Demo.unattached) = []
   /\ calls (world (exec draw Demo.unattached))
      = [draw_edge sphere_shader [] (3 # 2) [1; 1; 1; 1]%Q false;
         draw_edge model_shader [] 4 [1; 1; 1; 1]%Q false])
  /\ (length (pos_array (self Demo.drawn)) = 4%nat
      /\ length (vertices (self Demo.drawn)) = 12%nat
      /\ filter is_raw_draw (calls (world (exec draw Demo.drawn)))
         = [glDrawArrays 0 2]).
Proof. vm_compute. repeat split; reflexivity. Qed.

(** C3 fails on the code.  Both sockets set, at distinct positions, with a
    positive disc radius that exceeds the arc length between them: the
    clearance fraction is 5/4, so the adjusted start is not strictly between
    the two orientations. *)
Lemma clearance_counterexample :
  let st := Demo.crowded in
  let sa := sockets (world st) 1%nat in
  let eb := sockets (world st) 2%nat in
  let t := (Socket.node_disc_radius sa
            / @get_distance_on_sphere Demo.collaborators eb sa (radius (self st)))%Q in
  _start_socket (self st) = Some 1%nat /\ _end_socket (self st) = Some 2%nat
  /\ Demo.vec3_eqb (Socket.xyz sa) (Socket.xyz eb) = false
  /\ (0 < Socket.node_disc_radius sa)%Q
  /\ result (@get_edge_start_end Demo.collaborators) st
     = Returned (@slerp Demo.collaborators (Socket.pos_orientation_offset sa)
                   (Socket.pos_orientation_offset eb) t,
                 Socket.pos_orientation_offset eb)
  /\ (t == 5 # 4)%Q
  /\ ~ (0 < t < 1)%Q.
Proof.
  cbn zeta. repeat split; try reflexivity.
  intros [_ Hlt]. vm_compute in Hlt. discriminate Hlt.
Qed.

(** C10 fails on the code.  Both sockets set, at one and the same position,
    so at arc distance zero, and a point count of zero: [update_position]
    does not raise, it returns normally with no polyline. *)
Lemma zero_distance_counterexample :
  let st := Demo.coincident in
  let sa := sockets (world st) 1%nat in
  let eb := sockets (world st) 2%nat in
  _start_socket (self st) = Some 1%nat /\ _end_socket (self st) = Some 2%nat
  /\ (@get_distance_on_sphere Demo.collaborators eb sa (radius (self st)) == 0)%Q
  /\ @get_number_of_points Demo.collaborators (Socket.xyz sa) (Socket.xyz eb)
       (radius (self st)) (unit_length (self st)) = 0%Z
  /\ result (@update_position Demo.collaborators) st = Returned tt
  /\ pos_array (self (exec (@update_position Demo.collaborators) st)) = [].
Proof. cbn zeta. repeat split; reflexivity. Qed.

End Scenarios.

(** * Further properties of the edge *)

Module EdgeMore.
Import SurfaceEdge Backrefs.

(** ** The vertex buffer *)

Lemma length_flatten (points : list vec3) :
  length (flatten points) = (3 * length points)%nat.
Proof.
  unfold flatten. induction points as [|[[x y] z] l IH]; [reflexivity|].
  cbn [map concat]. rewrite length_app, IH. cbn. lia.
Qed.

Lemma foldl_coordinates (points : list vec3) (acc : list Q) :
  foldl (fun acc (point : vec3) =>
           let '(x, y, z) := point in acc ++ [x] ++ [y] ++ [z])
        acc points
  = acc ++ flatten points.
Proof.
  revert acc. induction points as [|[[x y] z] l IH]; intros acc.
  - cbn. rewrite app_nil_r. reflexivity.
  - cbn [foldl]. rewrite IH. unfold flatten. cbn [map concat].
    rewrite <- app_assoc. reflexivity.
Qed.

Section Buffers.
Context `{Collaborators}.

(** [update_buffers] returns normally; the vertex list holds the three
    coordinates of every point, each narrowed to [float32], point after
    point and nothing in between, so three numbers per point; the buffer
    is a copy of the vertex list; nothing else of the edge or of the store
    changes. *)
Theorem update_buffers_flattens (points : list vec3) (st : State) :
  update_buffers points st
  = (Returned tt,
     on_self (with_buffers (map float32 (flatten points))
                           (map float32 (flatten points))) st)
  /\ vertices (self (exec (update_buffers points) st))
     = map float32 (flatten points)
  /\ buffer (self (exec (update_buffers points) st))
     = vertices (self (exec (update_buffers points) st))
  /\ length (vertices (self (exec (update_buffers points) st)))
     = (3 * length points)%nat.
Proof.
  assert (Hu : update_buffers points st
               = (Returned tt,
                  on_self (with_buffers (map float32 (flatten points))
                                        (map float32 (flatten points))) st)).
  { unfold update_buffers. rewrite foldl_coordinates. reflexivity. }
  split; [exact Hu|]. unfold exec. rewrite Hu. cbn.
  repeat split; try reflexivity. rewrite length_map. apply length_flatten.
Qed.

End Buffers.

(** ** The polyline in general *)

Lemma lookup_map_seq {A : Type} (g : nat -> A) (k s j : nat) :
  (j < k)%nat -> map g (seq s k) !! j = Some (g (s + j)%nat).
Proof.
  revert s j. induction k as [|k IH]; intros s j Hj; [lia|].
  destruct j as [|j]; cbn.
  - rewrite Nat.add_0_r. reflexivity.
  - rewrite IH by lia. f_equal. f_equal. lia.
Qed.

Lemma lookup_map_range {A : Type} (g : Z -> A) (n i : Z) :
  (0 <= i < n)%Z -> map g (range n) !! Z.to_nat i = Some (g i).
Proof.
  intros Hi. unfold range. rewrite map_map.
  rewrite lookup_map_seq by lia. cbn. rewrite Z2Nat.id by lia. reflexivity.
Qed.

Lemma length_map_range {A : Type} (g : Z -> A) (n : Z) :
  length (map g (range n)) = Z.to_nat n.
Proof. unfold range. rewrite !length_map, length_seq. reflexivity. Qed.

Section PolylineState.
Context `{Collaborators}.

(** The store [update_line_points_position] leaves behind, in full. *)
Lemma update_line_points_position_state (st : State) (a b : socket_ref)
    (n : Z) (step : Q) :
  _start_socket (self st) = Some a -> _end_socket (self st) = Some b ->
  let sa := sockets (world st) a in
  let eb := sockets (world st) b in
  let ln := get_distance_on_sphere eb sa (radius (self st)) in
  let start := slerp (Socket.pos_orientation_offset sa)
                     (Socket.pos_orientation_offset eb)
                     (Socket.node_disc_radius sa / ln) in
  let points := map (fun i => get_position
                       (slerp start (Socket.pos_orientation_offset eb)
                              (step * inject_Z i))) (range n) in
  Qeq_bool ln 0 = false ->
  update_line_points_position n step st
  = (Returned tt,
     mkState
       (with_buffers (map float32 (flatten points)) (map float32 (flatten points))
          (with_xyz (Some (Socket.xyz sa))
             (with_collision_object_id (Some (next_collision_id (world st)))
                (with_pos_array points (self st)))))
       (with_collision_objects
          (<[ id (self st) := (next_collision_id (world st), points) ]>
             (collision_objects (world st)))
          (next_collision_id (world st) + 1)%Z (world st))).
Proof.
  intros Hs He sa eb ln start points Hln.
  unfold update_line_points_position.
  pose proof (EdgeFacts.get_edge_start_end_eq st a b Hs He) as Hg. cbn zeta in Hg.
  fold sa eb ln in Hg. rewrite Hln in Hg. fold start in Hg.
  rewrite (EdgeFacts.bind_returned _ _ _ _ _ Hg). cbn beta iota.
  erewrite EdgeFacts.bind_returned by (unfold modify; reflexivity).
  erewrite EdgeFacts.bind_returned by apply EdgeFacts.loop_appends.
  unfold start_socket, attr, create_collision_object, update_buffers. run.
  cbn. rewrite Hs. cbn. rewrite !foldl_coordinates. reflexivity.
Qed.

End PolylineState.

Lemma step_parameter_bounds (n i : Z) :
  (0 < n)%Z -> (0 <= i < n)%Z ->
  let step := if (1 <? n)%Z then (1 / inject_Z n)%Q else 1%Q in
  (0 <= step * inject_Z i)%Q /\ (step * inject_Z i < 1)%Q.
Proof.
  intros Hn Hi. cbn zeta.
  destruct (1 <? n)%Z eqn:E.
  - destruct n as [|p|p]; try lia.
    unfold Qle, Qlt, Qdiv, Qmult, Qinv, inject_Z. cbn. split; nia.
  - apply Z.ltb_ge in E. assert (i = 0%Z) by lia. subst i.
    unfold Qle, Qlt. cbn. split; lia.
Qed.

Lemma calls_twice (st : State) (cs1 cs2 : list call) :
  on_world (fun w => with_calls (calls w ++ cs2) w)
    (on_world (fun w => with_calls (calls w ++ cs1) w) st)
  = on_world (fun w => with_calls (calls w ++ (cs1 ++ cs2)) w) st.
Proof. unfold on_world, with_calls. cbn. rewrite <- app_assoc. reflexivity. Qed.

(** What [load_mesh_into_opengl] does, in full: eight calls, in this order,
    and nothing else. *)
Lemma load_mesh_into_opengl_state (st : State) :
  load_mesh_into_opengl st
  = (Returned tt,
     on_world (fun w => with_calls
       (calls w ++ [glBindVertexArray (mesh_id (self st));
                    glBindBuffer (buffer_id (self st));
                    glBufferData (4 * Z.of_nat (length (buffer (self st))))
                                 (buffer (self st));
                    glEnableVertexAttribArray 0;
                    glVertexAttribPointer 0 3 32;
                    glBindBuffer 0;
                    glBindVertexArray 0;
                    set_environment]) w) st).
Proof.
  unfold load_mesh_into_opengl, issue. run.
  rewrite !calls_twice. reflexivity.
Qed.

Section Updates.
Context `{Collaborators}.

(** [update_position] on an edge with both endpoints, case by case. *)
Lemma update_position_cases (st : State) (a b : socket_ref) :
  _start_socket (self st) = Some a -> _end_socket (self st) = Some b ->
  let sa := sockets (world st) a in
  let eb := sockets (world st) b in
  let ln := get_distance_on_sphere eb sa (radius (self st)) in
  let n := get_number_of_points (Socket.xyz sa) (Socket.xyz eb)
             (radius (self st)) (unit_length (self st)) in
  let step := if (1 <? n)%Z then (1 / inject_Z n)%Q else 1%Q in
  update_position st
  = if (0 <? n)%Z then
      if Qeq_bool ln 0 then (Raised ZeroDivisionError, st)
      else load_mesh_into_opengl (exec (update_line_points_position n step) st)
    else load_mesh_into_opengl st.
Proof.
  intros Hs He sa eb ln n step.
  pose proof (EdgeFacts.update_position_eq st a b Hs He) as Hu. cbn zeta in Hu.
  fold sa eb n step in Hu. rewrite Hu.
  destruct (0 <? n)%Z.
  - destruct (Qeq_bool ln 0) eqn:Hln.
    + pose proof (EdgeFacts.get_edge_start_end_eq st a b Hs He) as Hg.
      cbn zeta in Hg. fold sa eb ln in Hg. rewrite Hln in Hg.
      apply EdgeFacts.bind_raised. unfold update_line_points_position.
      apply EdgeFacts.bind_raised. exact Hg.
    + pose proof (update_line_points_position_state st a b n step Hs He Hln) as Hp.
      cbn zeta in Hp. unfold exec. rewrite Hp.
      erewrite EdgeFacts.bind_returned by exact Hp. reflexivity.
  - erewrite EdgeFacts.bind_returned by reflexivity. reflexivity.
Qed.

(** [update_line_points_position], called with any count [n] and step, on
    an edge with both endpoints at a non-zero arc length: it returns
    normally, and the polyline it leaves is exactly the list of the
    positions of [slerp(adjusted start, end, step * i)] for [i] in
    [range(n)], whatever the polyline was before; so it has one point per
    index and none when [n <= 0].  The vertex list is that polyline
    flattened and narrowed to [float32], three numbers per point, and the
    buffer equals it; the edge's position is the start socket's; the handle
    [create_collision_object] returned is stored, and the edge is
    registered for picking under it over exactly these points. *)
Theorem update_line_points_position_replaces_polyline (st : State)
    (a b : socket_ref) (n : Z) (step : Q) :
  _start_socket (self st) = Some a -> _end_socket (self st) = Some b ->
  let sa := sockets (world st) a in
  let eb := sockets (world st) b in
  let ln := get_distance_on_sphere eb sa (radius (self st)) in
  let start := slerp (Socket.pos_orientation_offset sa)
                     (Socket.pos_orientation_offset eb)
                     (Socket.node_disc_radius sa / ln) in
  ~ (ln == 0)%Q ->
  let st' := exec (update_line_points_position n step) st in
  result (update_line_points_position n step) st = Returned tt
  /\ pos_array (self st')
     = map (fun i => get_position
                       (slerp start (Socket.pos_orientation_offset eb)
                              (step * inject_Z i))) (range n)
  /\ length (pos_array (self st')) = Z.to_nat n
  /\ ((n <= 0)%Z -> pos_array (self st') = [])
  /\ vertices (self st') = map float32 (flatten (pos_array (self st')))
  /\ buffer (self st') = vertices (self st')
  /\ length (vertices (self st')) = (3 * Z.to_nat n)%nat
  /\ xyz (self st') = Some (Socket.xyz sa)
  /\ collision_objects (world st') !! id (self st)
     = Some (next_collision_id (world st), pos_array (self st'))
  /\ collision_object_id (self st') = Some (next_collision_id (world st)).
Proof.
  intros Hs He sa eb ln start Hln st'. apply EdgeFacts.Qeq_bool_false in Hln.
  pose proof (update_line_points_position_state st a b n step Hs He Hln) as Hp.
  cbn zeta in Hp. subst st'. unfold result, exec. rewrite Hp. cbn.
  split; [reflexivity|]. split; [reflexivity|].
  split; [apply length_map_range|].
  split.
  { intros Hn. unfold range. replace (Z.to_nat n) with 0%nat by lia. reflexivity. }
  split; [reflexivity|]. split; [reflexivity|].
  split; [rewrite length_map, length_flatten, length_map_range; reflexivity|].
  split; [reflexivity|]. split; [apply lookup_insert_eq|reflexivity].
Qed.

(** [update_position] on an edge with both endpoints, a non-zero arc length
    and a positive point count [n]: it returns normally with exactly [n]
    points and [3 n] vertex numbers; point [i] is the position of
    [slerp(adjusted start, end, step * i)], and every such parameter lies in
    [0, 1): no point of the polyline is taken at parameter 1. *)
Theorem update_position_parameters_below_one (st : State) (a b : socket_ref) :
  _start_socket (self st) = Some a -> _end_socket (self st) = Some b ->
  let sa := sockets (world st) a in
  let eb := sockets (world st) b in
  let ln := get_distance_on_sphere eb sa (radius (self st)) in
  let n := get_number_of_points (Socket.xyz sa) (Socket.xyz eb)
             (radius (self st)) (unit_length (self st)) in
  let step := if (1 <? n)%Z then (1 / inject_Z n)%Q else 1%Q in
  let start := slerp (Socket.pos_orientation_offset sa)
                     (Socket.pos_orientation_offset eb)
                     (Socket.node_disc_radius sa / ln) in
  let st' := exec update_position st in
  ~ (ln == 0)%Q -> (0 < n)%Z ->
  result update_position st = Returned tt
  /\ length (pos_array (self st')) = Z.to_nat n
  /\ length (vertices (self st')) = (3 * Z.to_nat n)%nat
  /\ (forall i, (0 <= i < n)%Z ->
        pos_array (self st') !! Z.to_nat i
        = Some (get_position
                  (slerp start (Socket.pos_orientation_offset eb)
                         (step * inject_Z i)))
        /\ (0 <= step * inject_Z i)%Q /\ (step * inject_Z i < 1)%Q).
Proof.
  intros Hs He sa eb ln n step start st' Hln Hn.
  apply EdgeFacts.Qeq_bool_false in Hln.
  pose proof (update_position_cases st a b Hs He) as Hu. cbn zeta in Hu.
  fold sa eb ln n step in Hu.
  destruct (0 <? n)%Z eqn:E; [|apply Z.ltb_ge in E; lia].
  rewrite Hln in Hu.
  pose proof (update_line_points_position_state st a b n step Hs He Hln) as Hp.
  cbn zeta in Hp. fold sa eb ln start in Hp.
  subst st'. unfold result, exec in *. rewrite Hu, Hp, load_mesh_into_opengl_state.
  cbn. split; [reflexivity|]. split; [apply length_map_range|].
  split; [rewrite length_map, length_flatten, length_map_range; reflexivity|].
  intros i Hi. split.
  { apply (lookup_map_range
             (fun j => get_position
                         (slerp start (Socket.pos_orientation_offset eb)
                                (step * inject_Z j)))). exact Hi. }
  apply step_parameter_bounds; assumption.
Qed.

(** [update_position] on an edge with both endpoints when no point is asked
    for ([n <= 0]): it returns normally and leaves the edge as it was, the
    polyline, vertices and collision handle of an earlier run included;
    nothing is registered for picking; the only effect is the upload of the
    buffer as it is, in eight calls. *)
Theorem update_position_without_points_keeps_polyline (st : State)
    (a b : socket_ref) :
  _start_socket (self st) = Some a -> _end_socket (self st) = Some b ->
  (get_number_of_points (Socket.xyz (sockets (world st) a))
     (Socket.xyz (sockets (world st) b))
     (radius (self st)) (unit_length (self st)) <= 0)%Z ->
  let st' := exec update_position st in
  result update_position st = Returned tt
  /\ self st' = self st
  /\ sockets (world st') = sockets (world st)
  /\ items (world st') = items (world st)
  /\ collision_objects (world st') = collision_objects (world st)
  /\ history (world st') = history (world st)
  /\ calls (world st')
     = calls (world st)
       ++ [glBindVertexArray (mesh_id (self st));
           glBindBuffer (buffer_id (self st));
           glBufferData (4 * Z.of_nat (length (buffer (self st))))
                        (buffer (self st));
           glEnableVertexAttribArray 0;
           glVertexAttribPointer 0 3 32;
           glBindBuffer 0;
           glBindVertexArray 0;
           set_environment].
Proof.
  intros Hs He Hn st'.
  pose proof (update_position_cases st a b Hs He) as Hu. cbn zeta in Hu.
  destruct (0 <? _)%Z eqn:E in Hu; [apply Z.ltb_lt in E; lia|].
  subst st'. unfold result, exec. rewrite Hu, load_mesh_into_opengl_state.
  cbn. repeat split; reflexivity.
Qed.

(** The geometry a successful recomputation leaves. *)
Lemma update_position_recomputed (st : State) (a b : socket_ref) :
  _start_socket (self st) = Some a -> _end_socket (self st) = Some b ->
  let sa := sockets (world st) a in
  let eb := sockets (world st) b in
  let ln := get_distance_on_sphere eb sa (radius (self st)) in
  let n := get_number_of_points (Socket.xyz sa) (Socket.xyz eb)
             (radius (self st)) (unit_length (self st)) in
  let step := if (1 <? n)%Z then (1 / inject_Z n)%Q else 1%Q in
  let start := slerp (Socket.pos_orientation_offset sa)
                     (Socket.pos_orientation_offset eb)
                     (Socket.node_disc_radius sa / ln) in
  let points := map (fun i => get_position
                       (slerp start (Socket.pos_orientation_offset eb)
                              (step * inject_Z i))) (range n) in
  Qeq_bool ln 0 = false -> (0 <? n)%Z = true ->
  result update_position st = Returned tt
  /\ pos_array (self (exec update_position st)) = points
  /\ vertices (self (exec update_position st)) = map float32 (flatten points)
  /\ buffer (self (exec update_position st)) = map float32 (flatten points)
  /\ xyz (self (exec update_position st)) = Some (Socket.xyz sa).
Proof.
  intros Hs He sa eb ln n step start points Hln Hn.
  pose proof (update_position_cases st a b Hs He) as Hu. cbn zeta in Hu.
  fold sa eb ln n step in Hu. rewrite Hn, Hln in Hu.
  pose proof (update_line_points_position_state st a b n step Hs He Hln) as Hp.
  cbn zeta in Hp. fold sa eb ln start points in Hp.
  unfold result, exec in *. rewrite Hu, Hp, load_mesh_into_opengl_state.
  cbn. repeat split; reflexivity.
Qed.

(** What [update_position] never touches, whatever its outcome. *)
Lemma update_position_frame (st : State) :
  let st' := exec update_position st in
  sockets (world st') = sockets (world st)
  /\ items (world st') = items (world st)
  /\ history (world st') = history (world st)
  /\ id (self st') = id (self st)
  /\ _start_socket (self st') = _start_socket (self st)
  /\ _end_socket (self st') = _end_socket (self st)
  /\ radius (self st') = radius (self st)
  /\ unit_length (self st') = unit_length (self st)
  /\ (result update_position st = Returned tt
      \/ result update_position st = Raised ZeroDivisionError).
Proof.
  cbn zeta.
  destruct (_start_socket (self st)) as [a|] eqn:Hs;
    [destruct (_end_socket (self st)) as [b|] eqn:He|].
  - pose proof (update_position_cases st a b Hs He) as Hu. cbn zeta in Hu.
    set (n := get_number_of_points _ _ _ _) in Hu.
    set (step := if (1 <? n)%Z then _ else _) in Hu.
    set (ln := get_distance_on_sphere _ _ _) in Hu.
    unfold result, exec. rewrite Hu.
    destruct (0 <? n)%Z.
    + destruct (Qeq_bool ln 0) eqn:Hln.
      * cbn. rewrite Hs, He. repeat split; try reflexivity. right; reflexivity.
      * pose proof (update_line_points_position_state st a b n step Hs He Hln) as Hp.
        cbn zeta in Hp. unfold exec. rewrite Hp, load_mesh_into_opengl_state.
        cbn. rewrite Hs, He. repeat split; try reflexivity. left; reflexivity.
    + rewrite load_mesh_into_opengl_state. cbn. rewrite Hs, He.
      repeat split; try reflexivity. left; reflexivity.
  - unfold update_position, start_socket, end_socket. run. rewrite Hs, He. cbn.
    rewrite Hs, He. repeat split; try reflexivity. left; reflexivity.
  - unfold update_position, start_socket, end_socket. run. rewrite Hs. cbn.
    rewrite Hs. repeat split; try reflexivity. left; reflexivity.
Qed.

Lemma update_position_missing (st : State) :
  _start_socket (self st) = None \/ _end_socket (self st) = None ->
  update_position st = (Returned tt, st).
Proof.
  intros Hm. unfold update_position, start_socket, end_socket. run.
  destruct Hm as [-> | ->]; [reflexivity|].
  destruct (_start_socket (self st)); reflexivity.
Qed.

(** Without recomputation the edge itself is left as it was. *)
Lemma update_position_not_recomputed (st : State) (a b : socket_ref) :
  _start_socket (self st) = Some a -> _end_socket (self st) = Some b ->
  let sa := sockets (world st) a in
  let eb := sockets (world st) b in
  let ln := get_distance_on_sphere eb sa (radius (self st)) in
  let n := get_number_of_points (Socket.xyz sa) (Socket.xyz eb)
             (radius (self st)) (unit_length (self st)) in
  (0 <? n)%Z = false \/ Qeq_bool ln 0 = true ->
  self (exec update_position st) = self st
  /\ result update_position st
     = if (0 <? n)%Z then Raised ZeroDivisionError else Returned tt.
Proof.
  intros Hs He sa eb ln n Hc.
  pose proof (update_position_cases st a b Hs He) as Hu. cbn zeta in Hu.
  fold sa eb ln n in Hu. unfold result, exec. rewrite Hu.
  destruct (0 <? n)%Z.
  - destruct Hc as [Hc|Hc]; [discriminate|]. rewrite Hc. split; reflexivity.
  - rewrite load_mesh_into_opengl_state. split; reflexivity.
Qed.

(** Running [update_position] a second time changes nothing of the
    geometry: the outcome is the same, and the polyline, the vertices, the
    buffer, the position and the endpoints are those of the first run. *)
Theorem update_position_twice (st : State) :
  let st1 := exec update_position st in
  let st2 := exec update_position st1 in
  result update_position st1 = result update_position st
  /\ pos_array (self st2) = pos_array (self st1)
  /\ vertices (self st2) = vertices (self st1)
  /\ buffer (self st2) = buffer (self st1)
  /\ xyz (self st2) = xyz (self st1)
  /\ _start_socket (self st2) = _start_socket (self st1)
  /\ _end_socket (self st2) = _end_socket (self st1).
Proof.
  cbn zeta.
  destruct (update_position_frame st)
    as (Hso & _ & _ & _ & Hs1 & He1 & Hr1 & Hu1 & _).
  destruct (update_position_frame (exec update_position st))
    as (_ & _ & _ & _ & Hs2 & He2 & _).
  cbn zeta in *.
  set (st1 := exec update_position st) in *.
  assert (Hends : _start_socket (self (exec update_position st1))
                  = _start_socket (self st1)
                  /\ _end_socket (self (exec update_position st1))
                     = _end_socket (self st1)) by (split; assumption).
  destruct (_start_socket (self st)) as [a|] eqn:Hs;
    [destruct (_end_socket (self st)) as [b|] eqn:He|].
  - destruct (0 <? get_number_of_points (Socket.xyz (sockets (world st) a))
                     (Socket.xyz (sockets (world st) b))
                     (radius (self st)) (unit_length (self st)))%Z eqn:En;
      [destruct (Qeq_bool (get_distance_on_sphere (sockets (world st) b)
                             (sockets (world st) a) (radius (self st))) 0)
         eqn:Hln|].
    + destruct (update_position_not_recomputed st a b Hs He (or_intror Hln))
        as [E0 R0].
      assert (Hln1 := Hln). assert (En1 := En).
      rewrite <- Hso, <- Hr1 in Hln1. rewrite <- Hso, <- Hr1, <- Hu1 in En1.
      destruct (update_position_not_recomputed st1 a b Hs1 He1 (or_intror Hln1))
        as [E1 R1].
      rewrite R1, R0, En1, En, E1. repeat split; solve [reflexivity | apply Hends].
    + destruct (update_position_recomputed st a b Hs He Hln En)
        as (R0 & P0 & V0 & B0 & X0).
      assert (Hln1 := Hln). assert (En1 := En).
      rewrite <- Hso, <- Hr1 in Hln1. rewrite <- Hso, <- Hr1, <- Hu1 in En1.
      destruct (update_position_recomputed st1 a b Hs1 He1 Hln1 En1)
        as (R1 & P1 & V1 & B1 & X1).
      rewrite !Hso, !Hr1, !Hu1 in P1. rewrite !Hso, !Hr1, !Hu1 in V1.
      rewrite !Hso, !Hr1, !Hu1 in B1. rewrite !Hso in X1.
      fold st1 in P0, V0, B0, X0.
      rewrite R1, R0, P1, P0, V1, V0, B1, B0, X1, X0. repeat split; solve [reflexivity | apply Hends].
    + destruct (update_position_not_recomputed st a b Hs He (or_introl En))
        as [E0 R0].
      assert (En1 := En). rewrite <- Hso, <- Hr1, <- Hu1 in En1.
      destruct (update_position_not_recomputed st1 a b Hs1 He1 (or_introl En1))
        as [E1 R1].
      rewrite R1, R0, En1, En, E1. repeat split; solve [reflexivity | apply Hends].
  - assert (E1 : st1 = st).
    { unfold st1, exec. rewrite update_position_missing by (right; exact He).
      reflexivity. }
    rewrite E1. fold st1. rewrite E1. repeat split; reflexivity.
  - assert (E1 : st1 = st).
    { unfold st1, exec. rewrite update_position_missing by (left; exact Hs).
      reflexivity. }
    rewrite E1. fold st1. rewrite E1. repeat split; reflexivity.
Qed.

End Updates.

(** ** The invariant of the back-references *)

Lemma run_returned {S A : Type} (m : M S A) (s : S) (a : A) :
  result m s = Returned a -> m s = (Returned a, exec m s).
Proof. unfold result, exec. destruct (m s) as [o s']. cbn. intros ->. reflexivity. Qed.

Lemma backrefs_consistent_frame (st st' : State) :
  sockets (world st') = sockets (world st) ->
  id (self st') = id (self st) ->
  _start_socket (self st') = _start_socket (self st) ->
  _end_socket (self st') = _end_socket (self st) ->
  backrefs_consistent st -> backrefs_consistent st'.
Proof.
  intros Hso Hid Hs He Hc s.
  unfold backrefs, edges_of, endpoints_at. rewrite Hso, Hid, Hs, He. apply Hc.
Qed.

Lemma draw_frame (st : State) :
  result draw st = Returned tt
  /\ sockets (world (exec draw st)) = sockets (world st)
  /\ items (world (exec draw st)) = items (world st)
  /\ collision_objects (world (exec draw st)) = collision_objects (world st)
  /\ history (world (exec draw st)) = history (world st)
  /\ self (exec draw st)
     = with_color (Some (if truthy_color (color (self st))
                         then default [] (color (self st))
                         else [0; 0; 0; 1 # 2]%Q)) (self st).
Proof.
  unfold draw, issue. run. cbn.
  destruct (vertices (self st)); cbn; repeat split; reflexivity.
Qed.

Lemma is_dragging_frame (st : State) (value : bool) :
  sockets (world (exec (is_dragging value) st)) = sockets (world st)
  /\ id (self (exec (is_dragging value) st)) = id (self st)
  /\ _start_socket (self (exec (is_dragging value) st)) = _start_socket (self st)
  /\ _end_socket (self (exec (is_dragging value) st)) = _end_socket (self st).
Proof.
  unfold is_dragging, store_history. run.
  destruct (_edge_moved (self st)), value; cbn; repeat split; reflexivity.
Qed.

Lemma draw_calls (st : State) :
  calls (world (exec draw st)) = calls (world st) ++ draw_issued (self st).
Proof.
  unfold draw, issue, draw_issued. run. cbn.
  destruct (vertices (self st)); cbn; rewrite <- !app_assoc; reflexivity.
Qed.

Section Invariant.
Context `{Collaborators}.

(** Consistency of the back-references with the endpoints is an invariant
    of every method but [remove]: both setters, [update_position],
    [load_mesh_into_opengl], [draw] and [is_dragging] keep it. *)
Theorem backrefs_consistent_preserved (st : State) :
  backrefs_consistent st ->
  (forall new, backrefs_consistent (exec (set_start_socket new) st))
  /\ (forall new, backrefs_consistent (exec (set_end_socket new) st))
  /\ backrefs_consistent (exec update_position st)
  /\ backrefs_consistent (exec load_mesh_into_opengl st)
  /\ backrefs_consistent (exec draw st)
  /\ (forall value, backrefs_consistent (exec (is_dragging value) st)).
Proof.
  intros Hc.
  split; [intros new; apply EdgeFacts.set_start_socket_consistent; exact Hc|].
  split; [intros new; apply EdgeFacts.set_end_socket_consistent; exact Hc|].
  split.
  { destruct (update_position_frame st) as (Hso & _ & _ & Hid & Hs & He & _).
    apply (backrefs_consistent_frame st); assumption. }
  split.
  { apply (backrefs_consistent_frame st); try exact Hc;
      unfold exec; rewrite load_mesh_into_opengl_state; reflexivity. }
  split.
  { destruct (draw_frame st) as (_ & Hso & _ & _ & _ & Hself).
    apply (backrefs_consistent_frame st); try exact Hc;
      [exact Hso | rewrite Hself; reflexivity ..]. }
  intros value.
  destruct (is_dragging_frame st value) as (Hso & Hid & Hs & He).
  apply (backrefs_consistent_frame st); assumption.
Qed.

End Invariant.

(** [remove] on an edge whose start socket is set and whose end socket is
    not: the [AttributeError] comes after the start socket has been
    detached.  The start socket no longer holds the edge, while the edge
    still names it as its start and is still an item of the sphere: the
    back-references are no longer consistent with the endpoints. *)
Theorem remove_half_attached_detaches_before_raising (st : State) (a : socket_ref) :
  _start_socket (self st) = Some a -> _end_socket (self st) = None ->
  backrefs_consistent st ->
  let st' := exec remove st in
  result remove st = Raised AttributeError
  /\ ~ holds_edge st' a
  /\ _start_socket (self st') = Some a
  /\ items (world st') = items (world st)
  /\ ~ backrefs_consistent st'.
Proof.
  intros Hs He Hc st'.
  assert (Hst : remove st
                = (Raised AttributeError,
                   on_world (fun w => with_sockets
                     (alter (Socket.remove_edge (id (self st))) a (sockets w)) w) st)).
  { unfold remove, start_socket, end_socket, socket_remove_edge. run.
    rewrite Hs. cbn. rewrite He. reflexivity. }
  assert (Hb : backrefs st' a = 0%nat).
  { subst st'. unfold exec. rewrite Hst. unfold backrefs, edges_of. cbn.
    rewrite EdgeFacts.backrefs_alter_remove. unfold detached.
    rewrite decide_True by reflexivity.
    pose proof (Hc a) as Ha. unfold backrefs, edges_of, endpoints_at in Ha.
    rewrite Ha, Hs, He. rewrite decide_True by reflexivity.
    rewrite decide_False by discriminate. reflexivity. }
  assert (Hstart : _start_socket (self st') = Some a)
    by (subst st'; unfold exec; rewrite Hst; exact Hs).
  assert (Hend : _end_socket (self st') = None)
    by (subst st'; unfold exec; rewrite Hst; exact He).
  split; [unfold result; rewrite Hst; reflexivity|].
  split; [rewrite EdgeFacts.holds_edge_backrefs, Hb; lia|].
  split; [exact Hstart|].
  split; [subst st'; unfold exec; rewrite Hst; reflexivity|].
  intros Hc'. pose proof (Hc' a) as Ha. rewrite Hb in Ha.
  unfold endpoints_at in Ha. rewrite Hstart, Hend in Ha.
  rewrite decide_True in Ha by reflexivity. lia.
Qed.

(** [draw] returns normally on every edge.  Of the edge it changes the
    color alone, and only when the color is unset or empty: the color is
    then black at half opacity, and afterwards the color is always set.
    Sockets, items, collision registry and history are untouched, and a
    second [draw] issues the same calls as the first. *)
Theorem draw_changes_color_only (st : State) :
  let st1 := exec draw st in
  let st2 := exec draw st1 in
  result draw st = Returned tt
  /\ truthy_color (color (self st1)) = true
  /\ (truthy_color (color (self st)) = true -> self st1 = self st)
  /\ (truthy_color (color (self st)) = false ->
      self st1 = with_color (Some [0; 0; 0; 1 # 2]%Q) (self st))
  /\ sockets (world st1) = sockets (world st)
  /\ items (world st1) = items (world st)
  /\ collision_objects (world st1) = collision_objects (world st)
  /\ history (world st1) = history (world st)
  /\ self st2 = self st1
  /\ calls (world st1) = calls (world st) ++ draw_issued (self st)
  /\ calls (world st2) = calls (world st1) ++ draw_issued (self st).
Proof.
  cbn zeta.
  destruct (draw_frame st) as (Hr & Hso & Hi & Hco & Hh & Hself).
  destruct (draw_frame (exec draw st)) as (_ & _ & _ & _ & _ & Hself2).
  assert (Htruthy : truthy_color (color (self (exec draw st))) = true).
  { rewrite Hself. destruct (color (self st)) as [[|x l]|]; reflexivity. }
  assert (Hsame : self (exec draw (exec draw st)) = self (exec draw st)).
  { rewrite Hself2, Htruthy.
    destruct (self (exec draw st)) as [i ss es r u pa v bu m bi co [[|x l]|] xy em];
      cbn in *; try discriminate. reflexivity. }
  split; [exact Hr|]. split; [exact Htruthy|].
  split.
  { intros Ht. rewrite Hself, Ht.
    destruct (self st) as [i ss es r u pa v bu m bi co [[|x l]|] xy em];
      cbn in *; try discriminate. reflexivity. }
  split; [intros Ht; rewrite Hself, Ht; reflexivity|].
  split; [exact Hso|]. split; [exact Hi|]. split; [exact Hco|].
  split; [exact Hh|]. split; [exact Hsame|].
  split; [apply draw_calls|].
  rewrite (draw_calls (exec draw st)). f_equal.
  unfold draw_issued. rewrite Hself. cbn.
  destruct (color (self st)) as [[|x l]|]; reflexivity.
Qed.

Lemma last_cons_default {A : Type} (x : A) (l : list A) (d d' : A) :
  List.last (x :: l) d = List.last (x :: l) d'.
Proof.
  revert x. induction l as [|y l IH]; intros x; [reflexivity|].
  change (List.last (y :: l) d = List.last (y :: l) d'). apply IH.
Qed.

(** A sequence of drag signals returns normally; it appends one history
    entry "edge moved" per signal that ends a drag, and no other; the edge
    ends in the state the last signal names. *)
Theorem drag_signals_history (vs : list bool) (st : State) :
  let st' := exec (drag_signals vs) st in
  result (drag_signals vs) st = Returned tt
  /\ history (world st')
     = history (world st)
       ++ repeat ("edge moved"%string, true) (drags_ended (_edge_moved (self st)) vs)
  /\ _edge_moved (self st') = List.last vs (_edge_moved (self st)).
Proof.
  revert st. induction vs as [|v vs IH]; intros st; cbn zeta.
  - cbn. rewrite app_nil_r. repeat split; reflexivity.
  - cbn [drag_signals drags_ended].
    assert (Hstep : exists st1,
              is_dragging v st = (Returned v, st1)
              /\ _edge_moved (self st1) = v
              /\ history (world st1)
                 = history (world st)
                   ++ repeat ("edge moved"%string, true)
                        (if _edge_moved (self st) && negb v then 1 else 0)).
    { unfold is_dragging, store_history. run.
      destruct (_edge_moved (self st)) eqn:Em, v; cbn; eexists;
        (split; [reflexivity|]); cbn; rewrite ?Em, ?app_nil_r; split; reflexivity. }
    destruct Hstep as (st1 & Hd & Hm & Hh).
    destruct (IH st1) as (Hr & Hh' & Hl). cbn zeta in *.
    unfold result, exec in *. rewrite (EdgeFacts.bind_returned _ _ _ _ _ Hd).
    split; [exact Hr|]. split.
    + rewrite Hh', Hh, Hm, <- app_assoc, <- repeat_app. reflexivity.
    + rewrite Hl, Hm. destruct vs as [|b vs']; [reflexivity|].
      rewrite (last_cons_default b vs' v (_edge_moved (self st))). reflexivity.
Qed.

(** ** The constructor *)

Section Constructor.
Context `{Collaborators}.
Import Lifecycle.

(** The constructor up to its last step: the store in which
    [update_position] is called. *)
Lemma constructor_steps (f : Fresh) (ss se : option socket_ref) (w : World) :
  (forall s, ~ In (new_id f) (Socket.edges (sockets w s))) ->
  exists st3,
    __init__ f ss se w = update_position st3
    /\ backrefs_consistent st3
    /\ new_id f ∈ items (world st3)
    /\ self st3 = with_end_socket se (with_start_socket ss (blank f)).
Proof.
  intros Hfresh.
  set (st0 := mkState (blank f) w).
  assert (Hc0 : backrefs_consistent st0).
  { intros s. unfold backrefs, edges_of, endpoints_at. cbn.
    rewrite (proj1 (count_occ_not_In Nat.eq_dec _ _) (Hfresh s)).
    rewrite !decide_False by discriminate. reflexivity. }
  destruct (EdgeFacts.set_start_socket_returns st0 ss) as [Hr1 Hs1].
  set (st1 := exec (set_start_socket ss) st0) in *.
  destruct (EdgeFacts.set_end_socket_returns st1 se) as [Hr2 Hs2].
  set (st2 := exec (set_end_socket se) st1) in *.
  exists (exec add_item st2).
  assert (Hself : self (exec add_item st2)
                  = with_end_socket se (with_start_socket ss (blank f))).
  { cbn. rewrite Hs2, Hs1. reflexivity. }
  split.
  { unfold __init__. fold st0.
    replace (if ss is Some _ then ss else None) with ss by (destruct ss; reflexivity).
    replace (if se is Some _ then se else None) with se by (destruct se; reflexivity).
    rewrite (EdgeFacts.bind_returned _ _ _ _ _ (run_returned _ _ _ Hr1)).
    rewrite (EdgeFacts.bind_returned _ _ _ _ _ (run_returned _ _ _ Hr2)).
    fold st1 st2. unfold mbind, M_bind, bind, add_item, modify. reflexivity. }
  split.
  { apply (backrefs_consistent_frame st2); try reflexivity.
    apply EdgeFacts.set_end_socket_consistent,
      EdgeFacts.set_start_socket_consistent, Hc0. }
  split; [|exact Hself].
  cbn. rewrite Hs2, Hs1. cbn. apply elem_of_union_r, elem_of_singleton. reflexivity.
Qed.

(** The constructor on a sphere none of whose sockets holds the new edge
    yet: whatever the outcome, the edge has the endpoints it was given, it
    is an item of the sphere, and exactly its endpoint sockets hold a
    back-reference to it, one per endpoint.  The constructor returns
    normally or raises [ZeroDivisionError]; with an endpoint missing it
    returns normally and the edge has no polyline. *)
Theorem constructor_attaches_and_registers (f : Fresh)
    (ss se : option socket_ref) (w : World) :
  (forall s, ~ In (new_id f) (Socket.edges (sockets w s))) ->
  let st := snd (__init__ f ss se w) in
  let outcome := fst (__init__ f ss se w) in
  id (self st) = new_id f
  /\ _start_socket (self st) = ss /\ _end_socket (self st) = se
  /\ new_id f ∈ items (world st)
  /\ backrefs_consistent st
  /\ (forall s, holds_edge st s <-> ss = Some s \/ se = Some s)
  /\ (outcome = Returned tt \/ outcome = Raised ZeroDivisionError)
  /\ (ss = None \/ se = None -> outcome = Returned tt /\ pos_array (self st) = []).
Proof.
  intros Hfresh. cbn zeta.
  destruct (constructor_steps f ss se w Hfresh) as (st3 & Hi & Hc & Hitem & Hself).
  rewrite Hi.
  destruct (update_position_frame st3)
    as (Hso & Hit & _ & Hid & Hs & He & _ & _ & Hout).
  cbn zeta in *. unfold exec, result in *.
  assert (Hc' : backrefs_consistent (snd (update_position st3)))
    by (apply (backrefs_consistent_frame st3); assumption).
  rewrite Hself in Hid, Hs, He. cbn in Hid, Hs, He.
  split; [exact Hid|]. split; [exact Hs|]. split; [exact He|].
  split; [rewrite Hit; exact Hitem|]. split; [exact Hc'|].
  split.
  { intros s. rewrite EdgeFacts.holds_edge_backrefs, (Hc' s).
    unfold endpoints_at. rewrite Hs, He.
    repeat case_decide; split; intros; try lia; tauto. }
  split; [exact Hout|].
  intros Hm. rewrite update_position_missing.
  - cbn. rewrite Hself. split; reflexivity.
  - rewrite Hself. cbn. exact Hm.
Qed.

(** The constructor on two sockets at arc length zero for which a point is
    asked for: it raises [ZeroDivisionError], and the edge it was building
    stays behind: it is an item of the sphere and both sockets hold a
    back-reference to it. *)
Theorem constructor_failure_leaves_edge_registered (f : Fresh)
    (a b : socket_ref) (w : World) :
  (forall s, ~ In (new_id f) (Socket.edges (sockets w s))) ->
  let st := snd (__init__ f (Some a) (Some b) w) in
  (get_distance_on_sphere (sockets (world st) b) (sockets (world st) a)
     (sphere_radius f) == 0)%Q ->
  (0 < get_number_of_points (Socket.xyz (sockets (world st) a))
         (Socket.xyz (sockets (world st) b))
         (sphere_radius f) (gr_unit_length f))%Z ->
  fst (__init__ f (Some a) (Some b) w) = Raised ZeroDivisionError
  /\ new_id f ∈ items (world st)
  /\ holds_edge st a /\ holds_edge st b
  /\ pos_array (self st) = [].
Proof.
  intros Hfresh. cbn zeta.
  destruct (constructor_steps f (Some a) (Some b) w Hfresh)
    as (st3 & Hi & Hc & Hitem & Hself).
  rewrite Hi.
  destruct (update_position_frame st3) as (Hso & _). cbn zeta in Hso.
  unfold exec in Hso. rewrite Hso.
  intros Hln Hn.
  assert (Hs : _start_socket (self st3) = Some a) by (rewrite Hself; reflexivity).
  assert (He : _end_socket (self st3) = Some b) by (rewrite Hself; reflexivity).
  assert (Hr : radius (self st3) = sphere_radius f) by (rewrite Hself; reflexivity).
  assert (Hu : unit_length (self st3) = gr_unit_length f) by (rewrite Hself; reflexivity).
  pose proof (update_position_cases st3 a b Hs He) as Hcase. cbn zeta in Hcase.
  rewrite Hr, Hu in Hcase.
  apply Z.ltb_lt in Hn. apply EdgeFacts.Qeq_bool_true in Hln.
  rewrite Hn, Hln in Hcase. rewrite Hcase. cbn.
  split; [reflexivity|]. split; [exact Hitem|].
  split; [|split].
  - rewrite EdgeFacts.holds_edge_backrefs, (Hc a). unfold endpoints_at.
    rewrite Hs. rewrite decide_True by reflexivity. lia.
  - rewrite EdgeFacts.holds_edge_backrefs, (Hc b). unfold endpoints_at.
    rewrite He. rewrite (decide_True (P := Some b = Some b)) by reflexivity. lia.
  - rewrite Hself. reflexivity.
Qed.

End Constructor.

End EdgeMore.

(** * Properties of the serialization *)

Module SerializationFacts.
Import Serialization.

Lemma on_edge_eq {A : Type} (m : M SurfaceEdge.State A) (s : t) :
  on_edge m s = (result m (edge s), with_edge (exec m (edge s)) s).
Proof. unfold on_edge, result, exec. destruct (m (edge s)); reflexivity. Qed.

Lemma on_edge_returned {A : Type} (m : M SurfaceEdge.State A) (s : t) (a : A) :
  result m (edge s) = Returned a ->
  on_edge m s = (Returned a, with_edge (exec m (edge s)) s).
Proof. intros Hr. rewrite on_edge_eq, Hr. reflexivity. Qed.

Lemma with_edge_same (s : t) : with_edge (edge s) s = s.
Proof. destruct s; reflexivity. Qed.

Section Records.
Context `{Collaborators} `{Registry}.

(** [serialize] in terms of the two endpoints. *)
Lemma serialize_eq (s : t) :
  serialize s
  = match SurfaceEdge._start_socket (SurfaceEdge.self (edge s)),
          SurfaceEdge._end_socket (SurfaceEdge.self (edge s)) with
    | Some a, Some b =>
        (Returned (mkData (id s) (type s) (edge_type s) (socket_id a) (socket_id b)
                          (serialized_detail_scene s)), s)
    | _, _ => (Raised AttributeError, s)
    end.
Proof.
  unfold serialize, id_of, SurfaceEdge.start_socket, SurfaceEdge.end_socket. run.
  rewrite on_edge_eq. unfold result, exec. cbn [fst snd]. rewrite with_edge_same.
  destruct (SurfaceEdge._start_socket (SurfaceEdge.self (edge s))) as [a|];
    [|destruct (SurfaceEdge._end_socket (SurfaceEdge.self (edge s))); reflexivity].
  rewrite on_edge_eq. unfold result, exec. cbn [fst snd]. rewrite with_edge_same.
  destruct (SurfaceEdge._end_socket (SurfaceEdge.self (edge s))) as [b|]; reflexivity.
Qed.

(** [deserialize] in terms of the methods it calls. *)
Lemma deserialize_eq (d : data) (restore_id : bool) (s : t) :
  let e2 := exec (SurfaceEdge.set_end_socket (get_item_by_id (data_end_socket_id d)))
              (exec (SurfaceEdge.set_start_socket
                       (get_item_by_id (data_start_socket_id d))) (edge s)) in
  let s' := mk (exec SurfaceEdge.update_position e2)
               (if restore_id then data_id d else id s) (type s)
               (data_edge_type d) (data_scene d) in
  deserialize d restore_id s
  = (match result SurfaceEdge.update_position e2 with
     | Returned _ => Returned true
     | Raised e => Raised e
     end, s').
Proof.
  cbn zeta. unfold deserialize.
  rewrite (EdgeFacts.bind_returned _ _ s
             (if restore_id then with_id (data_id d) s else s) tt)
    by (destruct restore_id; reflexivity).
  erewrite EdgeFacts.bind_returned by (unfold modify; reflexivity).
  erewrite EdgeFacts.bind_returned
    by (apply on_edge_returned, EdgeFacts.set_start_socket_returns).
  erewrite EdgeFacts.bind_returned
    by (apply on_edge_returned, EdgeFacts.set_end_socket_returns).
  erewrite EdgeFacts.bind_returned by (unfold modify; reflexivity).
  unfold mbind, M_bind, bind. rewrite on_edge_eq.
  destruct restore_id;
    cbn [edge with_edge with_scene with_edge_type with_id];
    destruct (result SurfaceEdge.update_position _); reflexivity.
Qed.

(** [serialize] on an edge with a missing endpoint raises
    [AttributeError] and changes nothing. *)
Theorem serialize_missing_endpoint_raises (s : t) :
  SurfaceEdge._start_socket (SurfaceEdge.self (edge s)) = None
  \/ SurfaceEdge._end_socket (SurfaceEdge.self (edge s)) = None ->
  serialize s = (Raised AttributeError, s).
Proof.
  intros Hm. rewrite serialize_eq.
  destruct Hm as [-> | ->]; [reflexivity|].
  destruct (SurfaceEdge._start_socket _); reflexivity.
Qed.

(** A record whose two socket ids the registry resolves, to sockets that
    carry these ids: whatever the outcome of [deserialize], it returns
    [True] or raises [ZeroDivisionError], and [serialize] on the edge it
    leaves returns the record read, except for the key [type], which
    [deserialize] does not read, and for the key [id] when [restore_id] is
    off. *)
Theorem deserialize_then_serialize (d : data) (restore_id : bool) (s : t)
    (a b : socket_ref) :
  get_item_by_id (data_start_socket_id d) = Some a ->
  get_item_by_id (data_end_socket_id d) = Some b ->
  socket_id a = data_start_socket_id d ->
  socket_id b = data_end_socket_id d ->
  let s' := exec (deserialize d restore_id) s in
  (result (deserialize d restore_id) s = Returned true
   \/ result (deserialize d restore_id) s = Raised ZeroDivisionError)
  /\ SurfaceEdge._start_socket (SurfaceEdge.self (edge s')) = Some a
  /\ SurfaceEdge._end_socket (SurfaceEdge.self (edge s')) = Some b
  /\ serialize s'
     = (Returned (mkData (if restore_id then data_id d else id s) (type s)
                         (data_edge_type d) (data_start_socket_id d)
                         (data_end_socket_id d) (data_scene d)), s').
Proof.
  intros Ha Hb Hia Hib s'.
  pose proof (deserialize_eq d restore_id s) as Hd. cbn zeta in Hd.
  rewrite Ha, Hb in Hd.
  set (e2 := exec (SurfaceEdge.set_end_socket (Some b))
               (exec (SurfaceEdge.set_start_socket (Some a)) (edge s))) in *.
  destruct (EdgeMore.update_position_frame e2)
    as (_ & _ & _ & _ & Hs & He & _ & _ & Hout).
  cbn zeta in Hs, He.
  assert (Hs2 : SurfaceEdge._start_socket (SurfaceEdge.self e2) = Some a).
  { unfold e2.
    rewrite (proj2 (EdgeFacts.set_end_socket_returns _ _)). cbn.
    rewrite (proj2 (EdgeFacts.set_start_socket_returns _ _)). reflexivity. }
  assert (He2 : SurfaceEdge._end_socket (SurfaceEdge.self e2) = Some b).
  { unfold e2.
    rewrite (proj2 (EdgeFacts.set_end_socket_returns _ _)). reflexivity. }
  rewrite Hs2 in Hs. rewrite He2 in He.
  subst s'. unfold result, exec. rewrite Hd. cbn [fst snd].
  split.
  { destruct Hout as [-> | ->]; [left|right]; reflexivity. }
  split; [exact Hs|]. split; [exact He|].
  rewrite serialize_eq. cbn [edge id type edge_type serialized_detail_scene].
  rewrite Hs, He, Hia, Hib. reflexivity.
Qed.

(** A record with a socket id the registry does not know: [deserialize]
    still returns [True]; the edge is left without that endpoint and with
    the polyline it had, and [serialize] on it raises [AttributeError]. *)
Theorem deserialize_unknown_socket (d : data) (restore_id : bool) (s : t) :
  get_item_by_id (data_start_socket_id d) = None
  \/ get_item_by_id (data_end_socket_id d) = None ->
  let s' := exec (deserialize d restore_id) s in
  result (deserialize d restore_id) s = Returned true
  /\ (SurfaceEdge._start_socket (SurfaceEdge.self (edge s')) = None
      \/ SurfaceEdge._end_socket (SurfaceEdge.self (edge s')) = None)
  /\ SurfaceEdge.pos_array (SurfaceEdge.self (edge s'))
     = SurfaceEdge.pos_array (SurfaceEdge.self (edge s))
  /\ result serialize s' = Raised AttributeError.
Proof.
  intros Hm s'.
  pose proof (deserialize_eq d restore_id s) as Hd. cbn zeta in Hd.
  set (e2 := exec (SurfaceEdge.set_end_socket (get_item_by_id (data_end_socket_id d)))
               (exec (SurfaceEdge.set_start_socket
                        (get_item_by_id (data_start_socket_id d))) (edge s))) in *.
  assert (Hself : SurfaceEdge.self e2
                  = SurfaceEdge.with_end_socket (get_item_by_id (data_end_socket_id d))
                      (SurfaceEdge.with_start_socket
                         (get_item_by_id (data_start_socket_id d))
                         (SurfaceEdge.self (edge s)))).
  { unfold e2.
    rewrite (proj2 (EdgeFacts.set_end_socket_returns _ _)).
    rewrite (proj2 (EdgeFacts.set_start_socket_returns _ _)). reflexivity. }
  assert (Hmiss : SurfaceEdge._start_socket (SurfaceEdge.self e2) = None
                  \/ SurfaceEdge._end_socket (SurfaceEdge.self e2) = None).
  { rewrite Hself. cbn. exact Hm. }
  pose proof (EdgeMore.update_position_missing e2 Hmiss) as Hu.
  subst s'. unfold result, exec in *. rewrite Hd, Hu. cbn [fst snd].
  split; [reflexivity|]. split; [exact Hmiss|].
  split; [cbn; rewrite Hself; reflexivity|].
  rewrite serialize_eq. cbn [edge].
  destruct Hmiss as [-> | ->]; [reflexivity|].
  destruct (SurfaceEdge._start_socket _); reflexivity.
Qed.

End Records.

End SerializationFacts.

(** * Further properties of the camera *)

Module CameraMore.
Import Camera.

Section Queue.
Context `{Pyrr}.

(** One [draw] on a queue that holds a pair, in full. *)
Lemma draw_step (c : t) (p q : vec3) (ps qs : list vec3) :
  movement_stack c = p :: ps -> target_stack c = q :: qs ->
  let direction := normalize (vsub p q) in
  let up := cross direction (normalize (cross (0, 1, 0)%Q direction)) in
  draw c
  = (Returned tt,
     mk q p (Some (vector_length (vsub q p))) (Some direction) (Some up)
        (mouse_sensitivity c) ps qs (Some (create_look_at p q up))).
Proof.
  intros Hm Ht. cbn zeta.
  destruct c as [tg pos d dir u ms_ mst tst v]. cbn in Hm, Ht. subst mst tst.
  unfold draw, get_view_matrix, _set_view, get_distance_to_target, set_view_loc,
    first_item, del_first. run. reflexivity.
Qed.

(** [draw] on a queue that holds at least one pair takes the first pair
    off both lists and applies it: the camera is at the queued position,
    looks at the queued target, the rest of the queue is left in order, and
    the view matrix published is the look-at matrix of that pair. *)
Theorem draw_pops_first_pair (c : t) (p q : vec3) (ps qs : list vec3) :
  movement_stack c = p :: ps -> target_stack c = q :: qs ->
  let c' := exec draw c in
  let direction := normalize (vsub p q) in
  let up := cross direction (normalize (cross (0, 1, 0)%Q direction)) in
  result draw c = Returned tt
  /\ xyz c' = p /\ target c' = q
  /\ movement_stack c' = ps /\ target_stack c' = qs
  /\ distance_to_target c' = Some (vector_length (vsub q p))
  /\ view_loc c' = Some (create_look_at p q up)
  /\ mouse_sensitivity c' = mouse_sensitivity c.
Proof.
  intros Hm Ht. cbn zeta. unfold result, exec.
  rewrite (draw_step c p q ps qs Hm Ht). cbn. repeat split; reflexivity.
Qed.

(** Frame after frame the queue is used up in order, one pair per frame:
    after [k + 1] frames the camera is at the pair of index [k], and the
    pairs behind it are still queued. *)
Theorem frames_apply_pairs_in_order (k : nat) (c : t) (p q : vec3) :
  movement_stack c !! k = Some p -> target_stack c !! k = Some q ->
  let c' := exec (frames (S k)) c in
  result (frames (S k)) c = Returned tt
  /\ xyz c' = p /\ target c' = q
  /\ movement_stack c' = drop (S k) (movement_stack c)
  /\ target_stack c' = drop (S k) (target_stack c).
Proof.
  revert c. induction k as [|k IH]; intros c Hp Hq; cbn zeta.
  - destruct (movement_stack c) as [|p0 ps] eqn:Hm; [discriminate|].
    destruct (target_stack c) as [|q0 qs] eqn:Ht; [discriminate|].
    cbn in Hp, Hq. injection Hp as ->. injection Hq as ->.
    cbn [frames]. unfold result, exec.
    rewrite (EdgeFacts.bind_returned _ _ _ _ _ (draw_step c p q ps qs Hm Ht)).
    cbn. rewrite !drop_0. repeat split; reflexivity.
  - destruct (movement_stack c) as [|p0 ps] eqn:Hm; [discriminate|].
    destruct (target_stack c) as [|q0 qs] eqn:Ht; [discriminate|].
    cbn in Hp, Hq.
    pose proof (draw_step c p0 q0 ps qs Hm Ht) as Hd. cbn zeta in Hd.
    change (frames (S (S k))) with (draw ;; frames (S k)).
    unfold result, exec. rewrite (EdgeFacts.bind_returned _ _ _ _ _ Hd).
    match goal with |- context [frames (S k) ?c1] => set (c1' := c1) end.
    destruct (IH c1' Hp Hq) as (Hr & Hx & Htg & Hms & Hts).
    cbn zeta in *. unfold result, exec in *.
    repeat split; assumption.
Qed.

(** [draw] on a queue with a position but no target raises [IndexError]
    after the position has been applied: the camera has moved, the pair is
    still queued, the target and the published view matrix are as they
    were.  On a queue with no position, queued targets are left alone and
    the camera stays where it is. *)
Theorem draw_unbalanced_queue (c : t) :
  (forall p ps,
     movement_stack c = p :: ps -> target_stack c = [] ->
     draw c = (Raised IndexError, with_xyz p c)
     /\ xyz (exec draw c) = p
     /\ target (exec draw c) = target c
     /\ movement_stack (exec draw c) = p :: ps
     /\ view_loc (exec draw c) = view_loc c)
  /\ (movement_stack c = [] ->
      result draw c = Returned tt
      /\ xyz (exec draw c) = xyz c
      /\ target (exec draw c) = target c
      /\ target_stack (exec draw c) = target_stack c).
Proof.
  split.
  - intros p ps Hm Ht.
    assert (Hd : draw c = (Raised IndexError, with_xyz p c)).
    { unfold draw, first_item. run. rewrite Hm. cbn. rewrite Ht. reflexivity. }
    unfold exec. rewrite Hd. cbn. repeat split; try reflexivity. exact Hm.
  - intros Hm.
    unfold draw, get_view_matrix, _set_view, get_distance_to_target, set_view_loc.
    run. rewrite Hm. cbn. repeat split; reflexivity.
Qed.

(** [get_view_matrix] returns the look-at matrix of the position and the
    target, with the up vector derived from them; it stores the distance
    recomputed from position and target and publishes the matrix, and it
    leaves position, target and queue alone.  Cached values play no part:
    two cameras with the same position and target get the same matrix, and
    a second call repeats the first. *)
Theorem get_view_matrix_from_position_and_target (c : t) :
  let direction := normalize (vsub (xyz c) (target c)) in
  let up := cross direction (normalize (cross (0, 1, 0)%Q direction)) in
  let m := create_look_at (xyz c) (target c) up in
  let c' := exec get_view_matrix c in
  result get_view_matrix c = Returned m
  /\ xyz c' = xyz c /\ target c' = target c
  /\ movement_stack c' = movement_stack c /\ target_stack c' = target_stack c
  /\ distance_to_target c' = Some (vector_length (vsub (target c) (xyz c)))
  /\ camera_up c' = Some up
  /\ view_loc c' = Some m
  /\ get_view_matrix c' = (Returned m, c')
  /\ (forall c2, xyz c2 = xyz c -> target c2 = target c ->
        result get_view_matrix c2 = Returned m).
Proof.
  cbn zeta.
  unfold get_view_matrix, _set_view, get_distance_to_target, set_view_loc. run.
  cbn. repeat split; try reflexivity.
  intros c2 Hx Ht. rewrite Hx, Ht. reflexivity.
Qed.

End Queue.

End CameraMore.

(** * The further properties on concrete inputs *)

Module MoreScenarios.
Import SurfaceEdge Backrefs.

Lemma scenario_backrefs : backrefs_consistent Demo.scenario.
Proof. intros s. destruct s as [|[|[|s]]]; reflexivity. Qed.

Lemma dangling_backrefs : backrefs_consistent Demo.dangling.
Proof. intros s. destruct s as [|[|[|s]]]; reflexivity. Qed.

Lemma free_world_fresh (s : socket_ref) :
  ~ In 7%nat (Socket.edges (sockets Demo2.free_world s)).
Proof. destruct s as [|[|[|s]]]; cbn; tauto. Qed.

Lemma stacked_world_fresh (s : socket_ref) :
  ~ In 7%nat (Socket.edges (sockets Demo2.stacked_world s)).
Proof. destruct s as [|[|[|s]]]; cbn; tauto. Qed.

(** The drawn scenario holds four points; asked for two, it holds two. *)
Lemma update_line_points_position_replaces_polyline_witness :
  let st' := exec (@update_line_points_position Demo.collaborators 2 (1 # 2))
               Demo.drawn in
  length (pos_array (self Demo.drawn)) = 4%nat
  /\ length (pos_array (self st')) = 2%nat
  /\ length (vertices (self st')) = 6%nat.
Proof.
  cbn zeta. split; [reflexivity|].
  destruct (@EdgeMore.update_line_points_position_replaces_polyline
              Demo.collaborators Demo.drawn 1%nat 2%nat 2 (1 # 2) eq_refl eq_refl)
    as (_ & _ & Hl & _ & _ & _ & Hv & _).
  { intros E. vm_compute in E. discriminate E. }
  split; [exact Hl|exact Hv].
Defined.

(** The scenario: four points, the last one at parameter 3/4. *)
Lemma update_position_parameters_below_one_witness :
  let st' := exec (@update_position Demo.collaborators) Demo.scenario in
  length (pos_array (self st')) = 4%nat
  /\ ((1 / inject_Z 4) * inject_Z 3 < 1)%Q.
Proof.
  cbn zeta.
  destruct (@EdgeMore.update_position_parameters_below_one
              Demo.collaborators Demo.scenario 1%nat 2%nat eq_refl eq_refl)
    as (_ & Hl & _ & Hi).
  { intros E. vm_compute in E. discriminate E. }
  { reflexivity. }
  split; [exact Hl|].
  destruct (Hi 3%Z) as (_ & _ & Hlt); [split; [discriminate|reflexivity]|].
  exact Hlt.
Defined.

(** Two sockets at one position, no point asked for: the edge is as it
    was. *)
Lemma update_position_without_points_keeps_polyline_witness :
  self (exec (@update_position Demo.collaborators) Demo.coincident)
  = self Demo.coincident
  /\ length (calls (world (exec (@update_position Demo.collaborators)
                             Demo.coincident))) = 8%nat.
Proof.
  destruct (@EdgeMore.update_position_without_points_keeps_polyline
              Demo.collaborators Demo.coincident 1%nat 2%nat eq_refl eq_refl)
    as (_ & Hself & _ & _ & _ & _ & Hcalls).
  { discriminate. }
  split; [exact Hself|]. rewrite Hcalls. reflexivity.
Defined.

(** The scenario stays consistent under an update and a reassignment. *)
Lemma backrefs_consistent_preserved_witness :
  backrefs_consistent (exec (@update_position Demo.collaborators) Demo.scenario)
  /\ backrefs_consistent (exec (set_start_socket (Some 3%nat)) Demo.scenario).
Proof.
  destruct (@EdgeMore.backrefs_consistent_preserved Demo.collaborators
              Demo.scenario scenario_backrefs) as (Hs & _ & Hu & _).
  split; [exact Hu|apply Hs].
Defined.

(** The edge under construction, removed: socket 1 is detached although the
    call raised. *)
Lemma remove_half_attached_detaches_before_raising_witness :
  holds_edge Demo.dangling 1%nat
  /\ result remove Demo.dangling = Raised AttributeError
  /\ ~ holds_edge (exec remove Demo.dangling) 1%nat
  /\ _start_socket (self (exec remove Demo.dangling)) = Some 1%nat.
Proof.
  split; [left; reflexivity|].
  destruct (EdgeMore.remove_half_attached_detaches_before_raising
              Demo.dangling 1%nat eq_refl eq_refl dangling_backrefs)
    as (Hr & Hh & Hs & _).
  repeat split; assumption.
Defined.

(** A new edge between the two free sockets. *)
Lemma constructor_attaches_and_registers_witness :
  let st := snd (@Lifecycle.__init__ Demo.collaborators Demo2.fresh
                   (Some 1%nat) (Some 2%nat) Demo2.free_world) in
  7%nat ∈ items (world st)
  /\ holds_edge st 1%nat /\ holds_edge st 2%nat /\ ~ holds_edge st 3%nat
  /\ backrefs_consistent st.
Proof.
  cbn zeta.
  destruct (@EdgeMore.constructor_attaches_and_registers Demo.collaborators
              Demo2.fresh (Some 1%nat) (Some 2%nat) Demo2.free_world
              free_world_fresh)
    as (_ & _ & _ & Hi & Hc & Hh & _).
  split; [exact Hi|].
  split; [apply Hh; left; reflexivity|].
  split; [apply Hh; right; reflexivity|].
  split; [|exact Hc].
  intros H3. apply Hh in H3. destruct H3 as [E|E]; discriminate E.
Defined.

(** A new edge between two sockets at one position, one point asked for:
    the constructor raises and the edge stays registered. *)
Lemma constructor_failure_leaves_edge_registered_witness :
  let st := snd (@Lifecycle.__init__ Demo2.eager Demo2.fresh
                   (Some 1%nat) (Some 2%nat) Demo2.stacked_world) in
  fst (@Lifecycle.__init__ Demo2.eager Demo2.fresh
         (Some 1%nat) (Some 2%nat) Demo2.stacked_world)
  = Raised ZeroDivisionError
  /\ 7%nat ∈ items (world st) /\ holds_edge st 1%nat /\ holds_edge st 2%nat.
Proof.
  cbn zeta.
  destruct (@EdgeMore.constructor_failure_leaves_edge_registered Demo2.eager
              Demo2.fresh 1%nat 2%nat Demo2.stacked_world stacked_world_fresh)
    as (Hr & Hi & Ha & Hb & _).
  { reflexivity. }
  { reflexivity. }
  repeat split; assumption.
Defined.

(** The edge under construction cannot be serialized. *)
Lemma serialize_missing_endpoint_raises_witness :
  result (@Serialization.serialize Demo2.registry)
    (Serialization.mk Demo.dangling 7 "edge" 0 None)
  = Raised AttributeError.
Proof.
  unfold result.
  rewrite (@SerializationFacts.serialize_missing_endpoint_raises Demo2.registry
             (Serialization.mk Demo.dangling 7 "edge" 0 None)).
  - reflexivity.
  - right. reflexivity.
Defined.

(** The stored record, read into the drawn scenario and written again. *)
Lemma deserialize_then_serialize_witness :
  result (@Serialization.serialize Demo2.registry)
    (exec (@Serialization.deserialize Demo.collaborators Demo2.registry
             Demo2.record true) Demo2.item)
  = Returned Demo2.record.
Proof.
  destruct (@SerializationFacts.deserialize_then_serialize Demo.collaborators
              Demo2.registry Demo2.record true Demo2.item 2%nat 1%nat
              eq_refl eq_refl eq_refl eq_refl) as (_ & _ & _ & Hs).
  unfold result. rewrite Hs. reflexivity.
Defined.

(** A record that names a socket the registry does not know. *)
Lemma deserialize_unknown_socket_witness :
  let d := Serialization.mkData 42 "edge" 3 999 101 None in
  let s' := exec (@Serialization.deserialize Demo.collaborators Demo2.registry
                    d true) Demo2.item in
  result (@Serialization.deserialize Demo.collaborators Demo2.registry d true)
    Demo2.item = Returned true
  /\ length (pos_array (self (Serialization.edge s'))) = 4%nat
  /\ result (@Serialization.serialize Demo2.registry) s' = Raised AttributeError.
Proof.
  cbn zeta.
  destruct (@SerializationFacts.deserialize_unknown_socket Demo.collaborators
              Demo2.registry (Serialization.mkData 42 "edge" 3 999 101 None)
              true Demo2.item) as (Hr & _ & Hp & Hs).
  { left. reflexivity. }
  split; [exact Hr|]. split; [rewrite Hp; reflexivity|exact Hs].
Defined.

(** Two queued pairs: one frame applies the first, two frames the second. *)
Lemma draw_pops_first_pair_witness :
  let c' := exec (@Camera.draw Demo.pyrr) Demo2.two_queued in
  Camera.xyz c' = (5, 0, 3)%Q /\ Camera.target c' = (5, 0, 0)%Q
  /\ Camera.movement_stack c' = [(9, 0, 3)%Q]
  /\ Camera.target_stack c' = [(9, 0, 0)%Q].
Proof.
  cbn zeta.
  destruct (@CameraMore.draw_pops_first_pair Demo.pyrr Demo2.two_queued
              (5, 0, 3)%Q (5, 0, 0)%Q [(9, 0, 3)%Q] [(9, 0, 0)%Q] eq_refl eq_refl)
    as (_ & Hx & Ht & Hm & Hts & _).
  repeat split; assumption.
Defined.

Lemma frames_apply_pairs_in_order_witness :
  let c' := exec (@frames Demo.pyrr 2) Demo2.two_queued in
  Camera.xyz c' = (9, 0, 3)%Q /\ Camera.target c' = (9, 0, 0)%Q
  /\ Camera.movement_stack c' = [] /\ Camera.target_stack c' = [].
Proof.
  cbn zeta.
  destruct (@CameraMore.frames_apply_pairs_in_order Demo.pyrr 1 Demo2.two_queued
              (9, 0, 3)%Q (9, 0, 0)%Q eq_refl eq_refl)
    as (_ & Hx & Ht & Hm & Hts).
  repeat split; assumption.
Defined.

End MoreScenarios.
